(** * FireProx: a shallow embedding of [fire.py] and its specification

    The program drives a cloud provider's API-gateway management interface
    through the [boto3] client.  The embedding keeps the program's shape:
    Python strings are [string], optional command-line arguments are
    [option string], the keyword dictionary handed to [boto3.session.Session]
    is a [gmap], and every method of the class [FireProx] is a computation in
    a small state-and-exception monad whose state carries the provider, the
    mutable attribute [self.region] and the log of prints and remote calls. *)

From Stdlib Require Import String Ascii List Bool Arith Lia.
From stdpp Require Import base option strings gmap.
Import ListNotations.

Open Scope string_scope.

(** ** Python strings *)

Module PyStr.

(** [s.startswith(p)] *)
Fixpoint startswith (p s : string) : bool :=
  match p, s with
  | EmptyString, _ => true
  | String a p', String b s' => if Ascii.eqb a b then startswith p' s' else false
  | String _ _, EmptyString => false
  end.

(** The scan behind [s.replace(old, new)] for a non-empty [old]: the
    leftmost occurrence is replaced, the scan resumes after it.  [skip]
    counts the characters of a matched occurrence still to be dropped. *)
Fixpoint replace_go (old new : string) (skip : nat) (s : string) : string :=
  match s with
  | EmptyString => EmptyString
  | String c s' =>
      match skip with
      | S k => replace_go old new k s'
      | O =>
          if startswith old s
          then new ++ replace_go old new (String.length old - 1) s'
          else String c (replace_go old new 0 s')
      end
  end.

(** With an empty [old] Python inserts [new] before every character and
    at the end. *)
Fixpoint interleave (new s : string) : string :=
  match s with
  | EmptyString => new
  | String c s' => new ++ String c (interleave new s')
  end.

(** [s.replace(old, new)] *)
Definition replace (old new s : string) : string :=
  match old with
  | EmptyString => interleave new s
  | String _ _ => replace_go old new 0 s
  end.

(** The last character, [s[-1]]; [None] stands for the [IndexError] of
    the empty string. *)
Fixpoint last_char (s : string) : option ascii :=
  match s with
  | EmptyString => None
  | String c EmptyString => Some c
  | String _ s' => last_char s'
  end.

(** [s[:-1]] *)
Fixpoint drop_last (s : string) : string :=
  match s with
  | EmptyString => EmptyString
  | String _ EmptyString => EmptyString
  | String c s' => String c (drop_last s')
  end.

(** Number of positions of [s] at which [p] occurs. *)
Fixpoint occurrences (p s : string) : nat :=
  match s with
  | EmptyString => 0
  | String _ s' => (if startswith p s then 1 else 0) + occurrences p s'
  end.

(** Membership of a character. *)
Fixpoint has_char (c : ascii) (s : string) : bool :=
  match s with
  | EmptyString => false
  | String a s' => Ascii.eqb a c || has_char c s'
  end.

(** The template of the source is written between triple quotes and is
    full of double quotes; here it is written with apostrophes, which it
    does not contain, and [dquote] puts the double quotes back. *)
Definition dquote_char (c : ascii) : ascii :=
  if Ascii.eqb c "'" then ascii_of_nat 34 else c.

Fixpoint dquote (s : string) : string :=
  match s with
  | EmptyString => EmptyString
  | String c s' => String (dquote_char c) (dquote s')
  end.

End PyStr.

(** ** The gateway definition template ([get_template], the literal) *)

Definition template_text : string :=
"
        {
          'swagger': '2.0',
          'info': {
            'version': '{{version_date}}',
            'title': '{{title}}'
          },
          'basePath': '/',
          'schemes': [
            'https'
          ],
          'paths': {
            '/': {
              'get': {
                'parameters': [
                  {
                    'name': 'proxy',
                    'in': 'path',
                    'required': true,
                    'type': 'string'
                  },
                  {
                    'name': 'X-My-X-Forwarded-For',
                    'in': 'header',
                    'required': false,
                    'type': 'string'
                  }
                ],
                'responses': {},
                'x-amazon-apigateway-integration': {
                  'uri': '{{url}}/',
                  'responses': {
                    'default': {
                      'statusCode': '200'
                    }
                  },
                  'requestParameters': {
                    'integration.request.path.proxy': 'method.request.path.proxy',
                    'integration.request.header.X-Forwarded-For': 'method.request.header.X-My-X-Forwarded-For'
                  },
                  'passthroughBehavior': 'when_no_match',
                  'httpMethod': 'ANY',
                  'cacheNamespace': 'irx7tm',
                  'cacheKeyParameters': [
                    'method.request.path.proxy'
                  ],
                  'type': 'http_proxy'
                }
              }
            },
            '/{proxy+}': {
              'x-amazon-apigateway-any-method': {
                'produces': [
                  'application/json'
                ],
                'parameters': [
                  {
                    'name': 'proxy',
                    'in': 'path',
                    'required': true,
                    'type': 'string'
                  },
                  {
                    'name': 'X-My-X-Forwarded-For',
                    'in': 'header',
                    'required': false,
                    'type': 'string'
                  }
                ],
                'responses': {},
                'x-amazon-apigateway-integration': {
                  'uri': '{{url}}/{proxy}',
                  'responses': {
                    'default': {
                      'statusCode': '200'
                    }
                  },
                  'requestParameters': {
                    'integration.request.path.proxy': 'method.request.path.proxy',
                    'integration.request.header.X-Forwarded-For': 'method.request.header.X-My-X-Forwarded-For'
                  },
                  'passthroughBehavior': 'when_no_match',
                  'httpMethod': 'ANY',
                  'cacheNamespace': 'irx7tm',
                  'cacheKeyParameters': [
                    'method.request.path.proxy'
                  ],
                  'type': 'http_proxy'
                }
              }
            }
          }
        }
        ".

Definition template : string := Eval vm_compute in PyStr.dquote template_text.

(** ** Python values that the program passes around *)

(** An argument that [argparse] leaves at [None] or sets to a string. *)
Abbreviation pystr := (option string).

(** Truth value of such an argument: [None] and [''] are false. *)
Definition truthy (v : pystr) : bool :=
  match v with
  | None => false
  | Some EmptyString => false
  | Some (String _ _) => true
  end.

(** [str(v)], as an f-string renders it. *)
Definition py_str (v : pystr) : string :=
  match v with
  | None => "None"
  | Some s => s
  end.

(** ** The provider: [boto3] and the API Gateway service behind it *)

(** The members of the responses that the program reads. *)
Record rest_api := RestApi {
  ra_id : string;            (* ['id'] *)
  ra_name : string;          (* ['name'] *)
  ra_createdDate : string;   (* ['createdDate'], as [str] renders it *)
  ra_version : string        (* ['version'] *)
}.

Record resource := Resource {
  rs_id : string;            (* ['id'] *)
  rs_path : string           (* ['path'] *)
}.

Record integration := Integration {
  ig_uri : string            (* ['uri'] *)
}.

Record deployment := Deployment {
  dp_id : string             (* ['id'] *)
}.

(** Exceptions of the Python run, [SystemExit] apart. *)
Inductive exn : Type :=
| ClientError (msg : string)
| NoRegionError (msg : string)
| TypeError
| IndexError
| OtherError (msg : string).

(** The calls into [boto3], indexed by what they answer.  The keyword
    arguments are the ones of the source. *)
Inductive call : Type -> Type :=
| boto3_client (region_name : pystr) : call pystr
    (* [boto3.client('apigateway', ...)]; answers the region of its config *)
| get_account : call unit
| boto3_Session (session_details : gmap string pystr) : call pystr
    (* [boto3.session.Session] applied to the keywords; answers [region_name] *)
| session_client : call unit
    (* [self.session.client('apigateway')] *)
| import_rest_api (endpointConfigurationTypes body : string) : call rest_api
| create_deployment_ (restApiId : pystr)
    (stageName stageDescription description : string) : call deployment
| get_rest_apis : call (list rest_api)
| get_resources (restApiId : pystr) : call (list resource)
| get_integration_ (restApiId resourceId : pystr) (httpMethod : string)
    : call integration
| update_integration (restApiId resourceId : pystr) (httpMethod : string)
    (op path value : string) : call integration
| delete_rest_api (restApiId : pystr) : call unit.

(** A call answers or raises. *)
Inductive reply (R : Type) : Type :=
| Ok (r : R)
| Fails (e : exn).
Arguments Ok {R} r.
Arguments Fails {R} e.

(** What a run leaves behind, in order: the lines printed and the calls
    made, each with its answer. *)
Inductive event : Type :=
| Print (line : string)
| Called {R : Type} (c : call R) (r : reply R).

Definition is_delete_request (e : event) : bool :=
  match e with Called (delete_rest_api _) _ => true | _ => false end.

(** The result of a method: a value, [sys.exit(status)], or an exception
    on its way up. *)
Inductive outcome (A : Type) : Type :=
| Ret (a : A)
| Exit (status : string)
| Raise (e : exn).
Arguments Ret {A} a.
Arguments Exit {A} status.
Arguments Raise {A} e.

(** The immutable attributes of a [FireProx] object. *)
Record FireProx := {
  profile_name : pystr;
  access_key : pystr;
  secret_access_key : pystr;
  session_token : pystr;
  command : string;
  api_id : pystr;
  url : pystr;
  help : string
}.

(** ** The state of a run and the monad of the methods *)

(** The provider's own state, the mutable attribute [self.region] and the
    prints and calls made so far. *)
Record state (St : Type) := State {
  provider : St;
  region : pystr;
  log : list event
}.
Arguments State {St} provider region log.
Arguments provider {St} s.
Arguments region {St} s.
Arguments log {St} s.

Definition M (St A : Type) : Type := state St -> outcome A * state St.

Definition ret {St A} (a : A) : M St A := fun s => (Ret a, s).

Definition bind {St A B} (m : M St A) (k : A -> M St B) : M St B :=
  fun s =>
    match m s with
    | (Ret a, s') => k a s'
    | (Exit status, s') => (Exit status, s')
    | (Raise e, s') => (Raise e, s')
    end.

Declare Scope py_scope.
Delimit Scope py_scope with py.
Notation "x <- m ;; k" := (bind m (fun x => k))
  (at level 100, m at next level, right associativity) : py_scope.
Notation "m ;; k" := (bind m (fun _ => k))
  (at level 100, right associativity) : py_scope.
Open Scope py_scope.

(** [raise e] *)
Definition raise {St A} (e : exn) : M St A := fun s => (Raise e, s).

(** [sys.exit(status)] *)
Definition sys_exit {St A} (status : string) : M St A := fun s => (Exit status, s).

Definition emit {St} (e : event) : M St unit :=
  fun s => (Ret tt, State (provider s) (region s) (log s ++ [e])).

(** [print(line)] *)
Definition print {St} (line : string) : M St unit := emit (Print line).

(** [self.region] and [self.region = r] *)
Definition get_region {St} : M St pystr := fun s => (Ret (region s), s).

Definition set_region {St} (r : pystr) : M St unit :=
  fun s => (Ret tt, State (provider s) r (log s)).

(** [try: body except E as error: handler]: [handler e] is [None] for an
    exception that no clause names. *)
Definition try_except {St A} (body : M St A) (handler : exn -> option (M St A))
  : M St A :=
  fun s =>
    match body s with
    | (Raise e, s') =>
        match handler e with
        | Some h => h s'
        | None => (Raise e, s')
        end
    | r => r
    end.

(** [try: body except: handler]: the bare clause catches every exception,
    [SystemExit] among them. *)
Definition try_bare {St A} (body handler : M St A) : M St A :=
  fun s =>
    match body s with
    | (Ret a, s') => (Ret a, s')
    | (Exit _, s') => handler s'
    | (Raise _, s') => handler s'
    end.

(** [for x in items: body(x)] *)
Fixpoint for_each {St A} (items : list A) (body : A -> M St unit) : M St unit :=
  match items with
  | [] => ret tt
  | x :: rest => body x ;; for_each rest body
  end.

(** ** The class [FireProx] *)

Section FireProx.

Context {St : Type}.

(** The behaviour of [boto3] and of the service: each call answers or
    raises, and moves the provider to its next state. *)
Variable remote : forall R : Type, call R -> St -> reply R * St.

(** [tldextract.extract(url).domain] *)
Variable tld_domain : string -> string.

(** The rendered timestamp, [f'{datetime.datetime.now():%Y-%m-%dT%XZ}']. *)
Variable version_date : string.

(** A call through [boto3]: it is logged, and its exception, if any, is
    raised at the call site. *)
Definition invoke {R : Type} (c : call R) : M St R :=
  fun s =>
    let (r, p) := remote R c (provider s) in
    let s' := State p (region s) (log s ++ [Called c r]) in
    match r with
    | Ok v => (Ret v, s')
    | Fails e => (Raise e, s')
    end.

(** [error] (lines 91-93) *)
Definition error {A : Type} (self : FireProx) (status : string) : M St A :=
  print (help self) ;;
  sys_exit status.

(** The clause [except ClientError as error: self.error(error)]. *)
Definition except_ClientError {A : Type} (self : FireProx) (e : exn)
  : option (M St A) :=
  match e with
  | ClientError msg => Some (error self msg)
  | _ => None
  end.

(** [_try_instance_profile] (lines 36-53) *)
Definition _try_instance_profile : M St bool :=
  try_bare
    (r <- get_region ;;
     cfg <- (if negb (truthy r)
             then invoke (boto3_client None)
             else invoke (boto3_client r)) ;;
     invoke get_account ;;
     set_region cfg ;;
     ret true)
    (ret false).

(** The dictionary [session_details] of [load_creds] (lines 64-75);
    [None] stands for the branch that reports the usage error. *)
Definition session_details (self : FireProx) : option (gmap string pystr) :=
  if truthy (profile_name self) then
    Some {[ "profile_name" := profile_name self ]}
  else if truthy (access_key self) && truthy (secret_access_key self) then
    let details : gmap string pystr :=
      <[ "aws_secret_access_key" := secret_access_key self ]>
        {[ "aws_access_key_id" := access_key self ]} in
    if truthy (session_token self)
    then Some (<[ "aws_sessoin_token" := session_token self ]> details)
    else Some details
  else None.

(** [load_creds] (lines 55-88) *)
Definition load_creds (self : FireProx) : M St bool :=
  if negb (truthy (access_key self) || truthy (secret_access_key self)
           || truthy (profile_name self))
  then _try_instance_profile
  else
    match session_details self with
    | None => error self "Please configure a profile or provice access keys"
    | Some details =>
        try_except
          (r <- get_region ;;
           session_region <- invoke (boto3_Session (<[ "region_name" := r ]> details)) ;;
           invoke session_client ;;
           set_region session_region ;;
           ret true)
          (fun e =>
             match e with
             | ClientError msg => Some (error self msg)
             | NoRegionError msg => Some (error self msg)
             | _ => None
             end)
    end.

(** [__init__] (lines 26-31), after the attributes are copied *)
Definition __init__ (self : FireProx) : M St unit :=
  (if truthy (access_key self) && truthy (secret_access_key self) then
     r <- get_region ;;
     if negb (truthy r)
     then error self "Please provide a region with AWS credentials"
     else ret tt
   else ret tt) ;;
  loaded <- load_creds self ;;
  if negb loaded
  then error self "Unable to load AWS credentials"
  else ret tt.

(** [if url[-1] == '/': url = url[:-1]] (lines 96-98 and 235-236):
    indexing [None] raises [TypeError], indexing [''] raises
    [IndexError]. *)
Definition strip_slash (url : pystr) : M St string :=
  match url with
  | None => raise TypeError
  | Some u =>
      match PyStr.last_char u with
      | None => raise IndexError
      | Some c => ret (if Ascii.eqb c "/" then PyStr.drop_last u else u)
      end
  end.

(** The three [template.replace] of lines 198-200, in their order. *)
Definition render (url title : string) : string :=
  PyStr.replace "{{version_date}}" version_date
    (PyStr.replace "{{title}}" title
       (PyStr.replace "{{url}}" url template)).

(** ['fireprox_{}'.format(tldextract.extract(url).domain)] (lines 100-102) *)
Definition title_of (url : string) : string :=
  "fireprox_" ++ tld_domain url.

(** [get_template] (lines 95-202) *)
Definition get_template (self : FireProx) : M St string :=
  url <- strip_slash (url self) ;;
  ret (render url (title_of url)).

(** The loop of [get_resource] (lines 326-331). *)
Fixpoint find_proxy_resource (items : list resource) : pystr :=
  match items with
  | [] => None
  | item :: rest =>
      if String.eqb (rs_path item) "/{proxy+}"
      then Some (rs_id item)
      else find_proxy_resource rest
  end.

(** [get_resource] (lines 318-331) *)
Definition get_resource (self : FireProx) (api_id : pystr) : M St pystr :=
  (if negb (truthy api_id)
   then error self "Please provide a valid API ID"
   else ret tt) ;;
  items <- try_except (invoke (get_resources api_id))
                      (except_ClientError self) ;;
  ret (find_proxy_resource items).

(** [get_integration] (lines 333-345) *)
Definition get_integration (self : FireProx) (api_id : pystr) : M St string :=
  (if negb (truthy api_id)
   then error self "Please provide a valid API ID"
   else ret tt) ;;
  resource_id <- get_resource self api_id ;;
  response <- try_except (invoke (get_integration_ api_id resource_id "ANY"))
                         (except_ClientError self) ;;
  ret (ig_uri response).

(** The address of a deployed gateway (lines 287 and 316). *)
Definition invoke_url (api_id region : pystr) : string :=
  "https://" ++ py_str api_id ++ ".execute-api." ++ py_str region
    ++ ".amazonaws.com/fireprox/".

(** [create_deployment] (lines 301-316) *)
Definition create_deployment (self : FireProx) (api_id : pystr)
  : M St (string * string) :=
  (if negb (truthy api_id)
   then error self "Please provide a valid API ID"
   else ret tt) ;;
  response <- try_except
                (invoke (create_deployment_ api_id "fireprox" "FireProx Prod"
                           "FireProx Production Deployment"))
                (except_ClientError self) ;;
  r <- get_region ;;
  ret (dp_id response, invoke_url api_id r).

(** [store_api] (lines 295-299) *)
Definition store_api (api_id name created_dt version_dt : string) (url : pystr)
    (resource_id proxy_url : string) : M St unit :=
  print ("[" ++ created_dt ++ "] (" ++ api_id ++ ") " ++ name ++ " => "
           ++ proxy_url ++ " (" ++ py_str url ++ ")").

(** [create_api] (lines 204-229) *)
Definition create_api (self : FireProx) (url : pystr) : M St unit :=
  (if negb (truthy url)
   then error self "Please provide a valid URL end-point"
   else ret tt) ;;
  print ("Creating => " ++ py_str url ++ "...") ;;
  template <- get_template self ;;
  response <- try_except (invoke (import_rest_api "REGIONAL" template))
                         (except_ClientError self) ;;
  created <- create_deployment self (Some (ra_id response)) ;;
  store_api (ra_id response) (ra_name response) (ra_createdDate response)
    (ra_version response) url (fst created) (snd created).

(** The line that [update_api] prints for the resource (line 240). *)
Definition found_line (resource_id api_id : pystr) : string :=
  "Found resource " ++ py_str resource_id ++ " for " ++ py_str api_id ++ "!".

(** [update_api] (lines 231-258) *)
Definition update_api (self : FireProx) (api_id url : pystr) : M St bool :=
  (if negb (truthy api_id || truthy url)
   then error self "Please provide a valid API ID and URL end-point"
   else ret tt) ;;
  url <- strip_slash url ;;
  resource_id <- get_resource self api_id ;;
  if truthy resource_id then
    print (found_line resource_id api_id) ;;
    response <- try_except
                  (invoke (update_integration api_id resource_id "ANY"
                             "replace" "/uri" (url ++ "/" ++ "{proxy}")))
                  (except_ClientError self) ;;
    ret (String.eqb (PyStr.replace "/{proxy}" "" (ig_uri response)) url)
  else
    error self ("Unable to update, no valid resource for " ++ py_str api_id).

(** The line that [list_api] prints for a gateway (line 289). *)
Definition list_line (created_dt api_id name url proxy_url : string) : string :=
  "[" ++ created_dt ++ "] (" ++ api_id ++ ") " ++ name ++ ": " ++ url
    ++ " => " ++ proxy_url.

(** The body of the loop of [list_api] (lines 282-291). *)
Definition list_item (self : FireProx) (deleted_api_id : pystr)
    (item : rest_api) : M St unit :=
  try_bare
    (let created_dt := ra_createdDate item in
     let api_id := ra_id item in
     let name := ra_name item in
     uri <- get_integration self (Some api_id) ;;
     let proxy_url := PyStr.replace "{proxy}" "" uri in
     r <- get_region ;;
     let url := invoke_url (Some api_id) r in
     if negb (bool_decide (Some api_id = deleted_api_id))
     then print (list_line created_dt api_id name url proxy_url)
     else ret tt)
    (ret tt).

(** [list_api] (lines 276-293) *)
Definition list_api (self : FireProx) (deleted_api_id : pystr)
  : M St (list rest_api) :=
  items <- try_except (invoke get_rest_apis) (except_ClientError self) ;;
  for_each items (list_item self deleted_api_id) ;;
  ret items.

(** The loop of [delete_api] (lines 264-274). *)
Fixpoint delete_matching (self : FireProx) (api_id : pystr)
    (items : list rest_api) : M St bool :=
  match items with
  | [] => ret false
  | item :: rest =>
      if bool_decide (Some (ra_id item) = api_id) then
        try_except (invoke (delete_rest_api api_id))
                   (except_ClientError self) ;;
        ret true
      else delete_matching self api_id rest
  end.

(** [delete_api] (lines 260-274) *)
Definition delete_api (self : FireProx) (api_id : pystr) : M St bool :=
  (if negb (truthy api_id)
   then error self "Please provide a valid API ID"
   else ret tt) ;;
  items <- list_api self api_id ;;
  delete_matching self api_id items.

(** ['Success!' if result else 'Failed!'] (lines 389 and 395) *)
Definition success_word (result : bool) : string :=
  if result then "Success!" else "Failed!".

(** The line feed. *)
Definition newline : string := String (ascii_of_nat 10) EmptyString.

(** [main] (lines 373-401), from the parsed arguments on: [region] is
    [args.region], which the constructor copies to [self.region] (line 17)
    before it loads the credentials.  The status of [sys.exit(1)] is
    written as its digit. *)
Definition main (args : FireProx) (region : pystr) : M St unit :=
  set_region region ;;
  __init__ args ;;
  if String.eqb (command args) "list" then
    print ("Listing " ++ py_str region ++ " API's...") ;;
    list_api args None ;;
    ret tt
  else if String.eqb (command args) "create" then
    create_api args (url args)
  else if String.eqb (command args) "delete" then
    result <- delete_api args (api_id args) ;;
    print ("Deleting " ++ py_str (api_id args) ++ " => " ++ success_word result)
  else if String.eqb (command args) "update" then
    print ("Updating " ++ py_str (api_id args) ++ " => " ++ py_str (url args)
             ++ "...") ;;
    result <- update_api args (api_id args) (url args) ;;
    print ("API Update Complete: " ++ success_word result)
  else
    print ("[ERROR] Unsupported command: " ++ command args ++ newline) ;;
    print (help args) ;;
    sys_exit "1".

End FireProx.

(** ** Vocabulary of the statements *)

(** The URL that the idiom of [strip_slash] leaves: one trailing slash,
    if there is one, is dropped. *)
Definition chop_slash (u : string) : string :=
  match PyStr.last_char u with
  | Some c => if Ascii.eqb c "/" then PyStr.drop_last u else u
  | None => u
  end.

Module Cut.

(** The text before the first occurrence of [p]. *)
Fixpoint before (p s : string) : string :=
  match s with
  | EmptyString => EmptyString
  | String c s' => if PyStr.startswith p s then EmptyString else String c (before p s')
  end.

Fixpoint drop (n : nat) (s : string) : string :=
  match n, s with
  | O, _ => s
  | S _, EmptyString => EmptyString
  | S k, String _ s' => drop k s'
  end.

(** The text after the first occurrence of [p]. *)
Fixpoint after (p s : string) : string :=
  match s with
  | EmptyString => EmptyString
  | String _ s' => if PyStr.startswith p s then drop (String.length p) s else after p s'
  end.

(** Texts put one after the other, each closed by a character. *)
Fixpoint join (l : list (string * ascii)) (last : string) : string :=
  match l with
  | [] => last
  | xd :: rest => fst xd ++ String (snd xd) (join rest last)
  end.

(** [x] contains none of the three placeholders of the template. *)
Definition plain (x : string) : bool :=
  Nat.eqb (PyStr.occurrences "{{url}}" x) 0
  && Nat.eqb (PyStr.occurrences "{{title}}" x) 0
  && Nat.eqb (PyStr.occurrences "{{version_date}}" x) 0.

End Cut.

(** The template between its placeholders: up to the version, from there
    to the title, from there to the URL of the root route, from there to
    the URL of the wildcard route, and the rest. *)
Definition seg_version : string :=
  Eval vm_compute in Cut.before "{{version_date}}" template.
Definition seg_title : string :=
  Eval vm_compute in
    Cut.before "{{title}}" (Cut.after "{{version_date}}" template).
Definition seg_root : string :=
  Eval vm_compute in
    Cut.before "{{url}}" (Cut.after "{{title}}" template).
Definition seg_wildcard : string :=
  Eval vm_compute in
    Cut.before "{{url}}" (Cut.after "{{url}}" template).
Definition seg_tail : string :=
  Eval vm_compute in
    Cut.after "{{url}}" (Cut.after "{{url}}" template).

(** The double quote. *)
Definition dq : string := String (ascii_of_nat 34) EmptyString.

(** The events that a computation appends to the log all satisfy [P]. *)
Definition appends {St A : Type} (P : event -> Prop) (m : M St A) : Prop :=
  forall s, exists evs,
    log (snd (m s)) = (log s ++ evs)%list /\ Forall P evs.

(** A set of calls, whatever they answer. *)
Definition calls := forall R : Type, call R -> bool.

Definition no_call : calls := fun _ _ => false.

(** The calls that look up the integration of a gateway. *)
Definition lookup_call : calls :=
  fun _ c =>
    match c with
    | get_resources _ => true
    | get_integration_ _ _ _ => true
    | _ => false
    end.

(** The event is a print or a call of [Q]. *)
Definition only (Q : calls) (e : event) : Prop :=
  match e with
  | Called c _ => Q _ c = true
  | Print _ => True
  end.



(** An event is harmless when it is not a call that raised [ClientError],
    the calls of [Q] apart. *)
Definition harmless (Q : calls) (e : event) : Prop :=
  match e with
  | Called c (Fails (ClientError _)) => Q _ c = true
  | _ => True
  end.

(** Outside [Q] a [ClientError] is fatal: a run either meets none, or its
    first one is its last call, the help text is printed next and the run
    ends in [sys.exit] with the message of the error. *)
Definition fatal_except {St A : Type} (Q : calls) (self : FireProx)
    (m : M St A) : Prop :=
  forall s, exists evs,
    log (snd (m s)) = (log s ++ evs)%list /\
    (Forall (harmless Q) evs \/
     exists pre R (c : call R) msg,
       evs = (pre ++ [Called c (Fails (ClientError msg)); Print (help self)])%list /\
       Forall (harmless Q) pre /\
       fst (m s) = Exit msg).

(** ** A small provider for the examples *)

Module Demo.

(** How the wildcard resource of a gateway is wired: to a backend, to
    nothing, or the gateway has no wildcard resource at all (a gateway
    that this tool did not create). *)
Inductive wiring : Type :=
| Proxied (uri : string)
| Unwired
| Plain.

Record gateway := Gateway {
  gw_api : rest_api;
  gw_wiring : wiring
}.

(** The account: its gateways. *)
Definition cloud : Type := list gateway.

Fixpoint find (id : pystr) (w : cloud) : option gateway :=
  match w with
  | [] => None
  | g :: rest =>
      if bool_decide (Some (ra_id (gw_api g)) = id) then Some g else find id rest
  end.

Fixpoint remove (id : pystr) (w : cloud) : cloud :=
  match w with
  | [] => []
  | g :: rest =>
      if bool_decide (Some (ra_id (gw_api g)) = id) then rest else g :: remove id rest
  end.

Fixpoint rewire (id : pystr) (uri : string) (w : cloud) : cloud :=
  match w with
  | [] => []
  | g :: rest =>
      if bool_decide (Some (ra_id (gw_api g)) = id)
      then Gateway (gw_api g) (Proxied uri) :: rest
      else g :: rewire id uri rest
  end.

Definition resources_of (g : gateway) : list resource :=
  match gw_wiring g with
  | Plain => [Resource "r0" "/"]
  | _ => [Resource "r0" "/"; Resource "r1" "/{proxy+}"]
  end.

Definition not_found {R : Type} (w : cloud) : reply R * cloud :=
  (Fails (ClientError "NotFoundException"), w).

(** The answers of the account. *)
Definition serve (R : Type) (c : call R) : cloud -> reply R * cloud :=
  match c in call R return cloud -> reply R * cloud with
  | boto3_client region_name => fun w => (Ok region_name, w)
  | get_account => fun w => (Ok tt, w)
  | boto3_Session details => fun w =>
      match details !! "aws_sessoin_token" with
      | Some _ => (Fails TypeError, w)
      | None => (Ok (default None (details !! "region_name")), w)
      end
  | session_client => fun w => (Ok tt, w)
  | import_rest_api _ body => fun w =>
      let api := RestApi "new1" "fireprox_example" "2026-01-01" "2026-01-01T00:00:00Z" in
      (Ok api, (w ++ [Gateway api (Proxied body)])%list)
  | create_deployment_ id _ _ _ => fun w =>
      match find id w with
      | Some _ => (Ok (Deployment "dep1"), w)
      | None => not_found w
      end
  | get_rest_apis => fun w => (Ok (map gw_api w), w)
  | get_resources id => fun w =>
      match find id w with
      | Some g => (Ok (resources_of g), w)
      | None => not_found w
      end
  | get_integration_ id resource_id _ => fun w =>
      match resource_id, find id w with
      | None, _ => (Fails (OtherError "ParamValidationError"), w)
      | Some _, Some (Gateway _ (Proxied uri)) => (Ok (Integration uri), w)
      | Some _, _ => not_found w
      end
  | update_integration id _ _ _ _ value => fun w =>
      match find id w with
      | Some _ => (Ok (Integration value), rewire id value w)
      | None => not_found w
      end
  | delete_rest_api id => fun w =>
      match find id w with
      | Some _ => (Ok tt, remove id w)
      | None => not_found w
      end
  end.

(** A stand-in for [tldextract], defined on the URL of the examples. *)
Definition domain (url : string) : string :=
  if String.eqb url "https://example.com" then "example" else "unknown".

Definition version_date : string := "2026-01-01T00:00:00Z".

Definition abc : rest_api := RestApi "abc123" "fireprox_example" "2026-01-01" "v1".
Definition other : rest_api := RestApi "zzz999" "billing" "2025-06-01" "v7".
Definition loose : rest_api := RestApi "qqq555" "fireprox_loose" "2025-07-01" "v2".

(** An account with a gateway whose wildcard resource lost its
    integration, a gateway of this tool and a gateway of somebody else. *)
Definition account : cloud :=
  [Gateway loose Unwired;
   Gateway abc (Proxied "https://old.example.org/{proxy}");
   Gateway other Plain].

Definition start : state cloud := State account (Some "us-east-1") [].

Definition args (api_id url : pystr) : FireProx :=
  {| profile_name := None; access_key := None; secret_access_key := None;
     session_token := None; command := "update"; api_id := api_id;
     url := url; help := "usage: fire.py" |}.

Definition keys (token : pystr) : FireProx :=
  {| profile_name := None; access_key := Some "AKIAEXAMPLE";
     secret_access_key := Some "secret"; session_token := token;
     command := "list"; api_id := None; url := None;
     help := "usage: fire.py" |}.

End Demo.

(** The calls that only read the account. *)
Definition read_call : calls :=
  fun _ c =>
    match c with
    | get_rest_apis => true
    | get_resources _ => true
    | get_integration_ _ _ _ => true
    | _ => false
    end.

(** The calls of [create_api]. *)
Definition create_call : calls :=
  fun _ c =>
    match c with
    | import_rest_api _ _ => true
    | create_deployment_ _ _ _ _ => true
    | _ => false
    end.

(** The event is a print or a call of [update_api] on the gateway
    [api_id]: the lookup of its resources or the patch of its
    integration. *)
Definition updates_only (api_id : pystr) (e : event) : Prop :=
  match e with
  | Print _ => True
  | Called (get_resources id) _ => id = api_id
  | Called (update_integration id _ _ _ _ _) _ => id = api_id
  | Called _ _ => False
  end.

(** The event is a print, a call that reads the account, or the request
    to delete the gateway [api_id]. *)
Definition deletes_only (api_id : pystr) (e : event) : Prop :=
  match e with
  | Print _ => True
  | Called (delete_rest_api id) _ => id = api_id
  | Called c _ => read_call _ c = true
  end.

(** The computation leaves [self.region] as it finds it. *)
Definition keeps_region {St A : Type} (m : M St A) : Prop :=
  forall s, region (snd (m s)) = region s.

(** No resource of the list is the wildcard resource. *)
Definition no_wildcard (items : list resource) : Prop :=
  Forall (fun item => rs_path item <> "/{proxy+}") items.

(** * Properties *)

(** ** Strings *)

Section Strings.

Import PyStr.

Lemma append_nil (b : string) : EmptyString ++ b = b.
Proof. reflexivity. Qed.

Lemma append_cons (x : ascii) (a b : string) :
  String x a ++ b = String x (a ++ b).
Proof. reflexivity. Qed.

Lemma append_assoc (a b c : string) : (a ++ b) ++ c = a ++ (b ++ c).
Proof.
  induction a as [|x a IH]; [reflexivity|].
  rewrite !append_cons, IH. reflexivity.
Qed.

Lemma last_char_app (u : string) (c : ascii) :
  last_char (u ++ String c EmptyString) = Some c.
Proof.
  induction u as [|a u IH]; [reflexivity|].
  rewrite append_cons. cbn [last_char]. rewrite IH.
  destruct u; reflexivity.
Qed.

Lemma drop_last_app (u : string) (c : ascii) :
  drop_last (u ++ String c EmptyString) = u.
Proof.
  induction u as [|a u IH]; [reflexivity|].
  rewrite append_cons. cbn [drop_last]. rewrite IH.
  destruct u; reflexivity.
Qed.

Lemma chop_slash_app (u : string) : chop_slash (u ++ "/") = u.
Proof.
  unfold chop_slash. rewrite last_char_app. simpl. apply drop_last_app.
Qed.

Lemma chop_slash_other (u : string) (c : ascii) :
  last_char u = Some c -> c <> "/"%char -> chop_slash u = u.
Proof.
  intros Hl Hc. unfold chop_slash. rewrite Hl.
  destruct (Ascii.eqb_spec c "/"); congruence.
Qed.

Lemma last_char_nonempty (u : string) :
  u <> EmptyString -> exists c, last_char u = Some c.
Proof.
  induction u as [|a u IH]; [congruence|]. intros _.
  destruct u as [|b u]; [exists a; reflexivity|].
  destruct IH as [c Hc]; [congruence|]. exists c. exact Hc.
Qed.

Lemma startswith_length (p s : string) :
  startswith p s = true -> String.length p <= String.length s.
Proof.
  revert s. induction p as [|a p IH]; intros [|b s]; simpl; try lia; try congruence.
  destruct (Ascii.eqb a b); [|congruence]. intros H. apply IH in H. lia.
Qed.

(** A character that [p] does not contain cannot take part in a match. *)
Lemma startswith_boundary (d : ascii) (p : string) :
  has_char d p = false ->
  forall x b, startswith p (x ++ String d b) = startswith p x.
Proof.
  induction p as [|a p IH]; intros Hd x b; [destruct x; reflexivity|].
  simpl in Hd. apply orb_false_iff in Hd as [Had Hp].
  destruct x as [|c x]; simpl.
  - rewrite Had. reflexivity.
  - destruct (Ascii.eqb a c); [apply IH; exact Hp|reflexivity].
Qed.

Lemma replace_go_boundary (old new : string) (d : ascii) (b : string) :
  has_char d old = false ->
  forall a k, k <= String.length a ->
    replace_go old new k (a ++ String d b)
    = replace_go old new k a ++ replace_go old new 0 (String d b).
Proof.
  intros Hd. induction a as [|c a IH]; intros k Hk.
  - simpl in Hk. assert (k = 0) by lia. subst k. reflexivity.
  - destruct k as [|k].
    + change (String c a ++ String d b) with (String c (a ++ String d b)).
      cbn [replace_go].
      change (String c (a ++ String d b)) with (String c a ++ String d b).
      rewrite (startswith_boundary d old Hd).
      destruct (startswith old (String c a)) eqn:Hs.
      * apply startswith_length in Hs. simpl in Hs.
        rewrite IH by lia.
        rewrite append_assoc. reflexivity.
      * rewrite IH by lia. reflexivity.
    + simpl. simpl in Hk. apply IH. lia.
Qed.

Lemma replace_go_skip_char (o : ascii) (old new : string) (d : ascii) (b : string) :
  Ascii.eqb o d = false ->
  replace_go (String o old) new 0 (String d b)
  = String d (replace_go (String o old) new 0 b).
Proof. intros H. simpl. rewrite H. reflexivity. Qed.

Lemma replace_go_absent (old new u : string) :
  occurrences old u = 0 -> replace_go old new 0 u = u.
Proof.
  induction u as [|c u IH]; [reflexivity|].
  cbn [occurrences replace_go].
  destruct (startswith old (String c u)); [intros H; simpl in H; lia|].
  intros H. simpl in H. rewrite IH by exact H. reflexivity.
Qed.

(** Crossing a text [u] without the pattern, up to a character that the
    pattern does not contain. *)
Lemma replace_go_cross (o : ascii) (old new u : string) (d : ascii) (b : string) :
  has_char d (String o old) = false ->
  occurrences (String o old) u = 0 ->
  replace_go (String o old) new 0 (u ++ String d b)
  = u ++ String d (replace_go (String o old) new 0 b).
Proof.
  intros Hd Hu.
  rewrite (replace_go_boundary _ _ _ _ Hd) by lia.
  rewrite (replace_go_absent _ _ _ Hu).
  rewrite replace_go_skip_char; [reflexivity|].
  simpl in Hd. apply orb_false_iff in Hd as [H _]. exact H.
Qed.

End Strings.

(** ** The rendered document *)

Section Rendering.

Import PyStr.

Lemma replace_go_split (o : ascii) (old new a : string) (d : ascii) (b : string) :
  has_char d (String o old) = false ->
  replace_go (String o old) new 0 (a ++ String d b)
  = replace_go (String o old) new 0 a
      ++ String d (replace_go (String o old) new 0 b).
Proof.
  intros Hd.
  rewrite (replace_go_boundary _ _ _ _ Hd) by lia.
  rewrite replace_go_skip_char; [reflexivity|].
  simpl in Hd. apply orb_false_iff in Hd as [H _]. exact H.
Qed.

(** Replacing in texts joined by characters that the pattern does not
    contain is replacing in each of them. *)
Lemma replace_go_join (o : ascii) (old new : string)
    (l : list (string * ascii)) (last : string) :
  Forall (fun xd => has_char (snd xd) (String o old) = false) l ->
  replace_go (String o old) new 0 (Cut.join l last)
  = Cut.join (map (fun xd => (replace_go (String o old) new 0 (fst xd), snd xd)) l)
      (replace_go (String o old) new 0 last).
Proof.
  induction 1 as [|[x d] l Hd _ IH]; [reflexivity|].
  cbn [Cut.join map fst snd] in *.
  rewrite (replace_go_split o old new x d _ Hd), IH. reflexivity.
Qed.

Lemma append_empty (a : string) : a ++ EmptyString = a.
Proof.
  induction a as [|x a IH]; [reflexivity|].
  rewrite append_cons, IH. reflexivity.
Qed.

Lemma replace_go_skip_all (old new s : string) :
  replace_go old new (String.length s) s = EmptyString.
Proof. induction s as [|c s IH]; [reflexivity|]. exact IH. Qed.

Lemma startswith_refl (p : string) : startswith p p = true.
Proof.
  induction p as [|c p IH]; [reflexivity|].
  simpl. rewrite Ascii.eqb_refl. exact IH.
Qed.

(** The pattern itself is replaced by the new text. *)
Lemma replace_go_self (o : ascii) (old new : string) :
  replace_go (String o old) new 0 (String o old) = new.
Proof.
  cbn [replace_go]. rewrite startswith_refl.
  cbn [String.length]. rewrite Nat.sub_1_r. cbn [Nat.pred].
  rewrite replace_go_skip_all. apply append_empty.
Qed.

Lemma plain_url (x : string) :
  Cut.plain x = true -> occurrences "{{url}}" x = 0.
Proof.
  unfold Cut.plain. intros H.
  apply andb_true_iff in H as [H _]. apply andb_true_iff in H as [H _].
  apply Nat.eqb_eq. exact H.
Qed.

Lemma plain_title (x : string) :
  Cut.plain x = true -> occurrences "{{title}}" x = 0.
Proof.
  unfold Cut.plain. intros H.
  apply andb_true_iff in H as [H _]. apply andb_true_iff in H as [_ H].
  apply Nat.eqb_eq. exact H.
Qed.

Lemma plain_version (x : string) :
  Cut.plain x = true -> occurrences "{{version_date}}" x = 0.
Proof.
  unfold Cut.plain. intros H.
  apply andb_true_iff in H as [_ H]. apply Nat.eqb_eq. exact H.
Qed.

(** The three replacements on a text laid out as the template is. *)
Lemma render_layout (sv st sr sw sl u t v : string) :
  Cut.plain sv = true -> Cut.plain st = true -> Cut.plain sr = true ->
  Cut.plain sw = true -> Cut.plain sl = true ->
  occurrences "{{title}}" u = 0 ->
  occurrences "{{version_date}}" u = 0 ->
  occurrences "{{version_date}}" t = 0 ->
  let q := ascii_of_nat 34 in
  replace "{{version_date}}" v
    (replace "{{title}}" t
       (replace "{{url}}" u
          (Cut.join
             [(sv, q); ("{{version_date}}", q); (st, q); ("{{title}}", q);
              (sr, q); ("{{url}}", "/"%char); (sw, q); ("{{url}}", "/"%char)]
             sl)))
  = Cut.join
      [(sv, q); (v, q); (st, q); (t, q); (sr, q); (u, "/"%char); (sw, q);
       (u, "/"%char)]
      sl.
Proof.
  intros Hsv Hst Hsr Hsw Hsl Htu Hvu Hvt q. unfold replace.
  rewrite replace_go_join by (repeat constructor).
  cbn [map fst snd].
  rewrite !replace_go_self.
  rewrite !(replace_go_absent "{{url}}") by (auto using plain_url).
  rewrite replace_go_join by (repeat constructor).
  cbn [map fst snd].
  rewrite !replace_go_self.
  rewrite !(replace_go_absent "{{title}}") by (auto using plain_title).
  rewrite replace_go_join by (repeat constructor).
  cbn [map fst snd].
  rewrite !replace_go_self.
  rewrite !(replace_go_absent "{{version_date}}") by (auto using plain_version).
  reflexivity.
Qed.

Lemma segments_plain :
  Cut.plain (drop_last seg_version) = true
  /\ Cut.plain (drop_last (Cut.drop 1 seg_title)) = true
  /\ Cut.plain (drop_last (Cut.drop 1 seg_root)) = true
  /\ Cut.plain (drop_last (Cut.drop 1 seg_wildcard)) = true
  /\ Cut.plain (Cut.drop 1 seg_tail) = true.
Proof. vm_compute. repeat split. Qed.

(** The template is laid out so: every placeholder stands between double
    quotes, the two of the URL between a double quote and a slash. *)
Lemma template_layout :
  template
  = Cut.join
      [(drop_last seg_version, ascii_of_nat 34);
       ("{{version_date}}", ascii_of_nat 34);
       (drop_last (Cut.drop 1 seg_title), ascii_of_nat 34);
       ("{{title}}", ascii_of_nat 34);
       (drop_last (Cut.drop 1 seg_root), ascii_of_nat 34);
       ("{{url}}", "/"%char);
       (drop_last (Cut.drop 1 seg_wildcard), ascii_of_nat 34);
       ("{{url}}", "/"%char)]
      (Cut.drop 1 seg_tail).
Proof. vm_compute. reflexivity. Qed.

Lemma layout_segments (v t u : string) :
  Cut.join
    [(drop_last seg_version, ascii_of_nat 34);
     (v, ascii_of_nat 34);
     (drop_last (Cut.drop 1 seg_title), ascii_of_nat 34);
     (t, ascii_of_nat 34);
     (drop_last (Cut.drop 1 seg_root), ascii_of_nat 34);
     (u, "/"%char);
     (drop_last (Cut.drop 1 seg_wildcard), ascii_of_nat 34);
     (u, "/"%char)]
    (Cut.drop 1 seg_tail)
  = seg_version ++ v ++ seg_title ++ t
      ++ seg_root ++ u ++ seg_wildcard ++ u ++ seg_tail.
Proof. vm_compute. reflexivity. Qed.

(** The document: the segments of the template around the timestamp, the
    title and, twice, the URL. *)
Lemma render_segments (v u t : string) :
  occurrences "{{title}}" u = 0 ->
  occurrences "{{version_date}}" u = 0 ->
  occurrences "{{version_date}}" t = 0 ->
  render v u t
  = seg_version ++ v ++ seg_title ++ t
      ++ seg_root ++ u ++ seg_wildcard ++ u ++ seg_tail.
Proof.
  intros H1 H2 H3.
  destruct segments_plain as (P1 & P2 & P3 & P4 & P5).
  exact (eq_trans
           (f_equal
              (fun x => replace "{{version_date}}" v
                          (replace "{{title}}" t (replace "{{url}}" u x)))
              template_layout)
           (eq_trans
              (render_layout _ _ _ _ _ u t v P1 P2 P3 P4 P5 H1 H2 H3)
              (layout_segments v t u))).
Qed.

End Rendering.

(** ** Runs *)

Section Runs.

Context {St : Type}.
Variable remote : forall R : Type, call R -> St -> reply R * St.

Lemma bind_ret {A B : Type} (m : M St A) (k : A -> M St B) s a s' :
  m s = (Ret a, s') -> bind m k s = k a s'.
Proof. intros H. unfold bind. rewrite H. reflexivity. Qed.

Lemma bind_exit {A B : Type} (m : M St A) (k : A -> M St B) s status s' :
  m s = (Exit status, s') -> bind m k s = (Exit status, s').
Proof. intros H. unfold bind. rewrite H. reflexivity. Qed.

Lemma bind_raise {A B : Type} (m : M St A) (k : A -> M St B) s e s' :
  m s = (Raise e, s') -> bind m k s = (Raise e, s').
Proof. intros H. unfold bind. rewrite H. reflexivity. Qed.

Lemma error_run {A : Type} (self : FireProx) (status : string) (s : state St) :
  error (A := A) self status s
  = (Exit status, State (provider s) (region s) (log s ++ [Print (help self)])).
Proof. reflexivity. Qed.

(** A guarded call, [try: invoke except ClientError: self.error]. *)
Lemma guarded_ok {R : Type} (self : FireProx) (c : call R) s v p :
  remote R c (provider s) = (Ok v, p) ->
  try_except (invoke remote c) (except_ClientError self) s
  = (Ret v, State p (region s) (log s ++ [Called c (Ok v)])).
Proof. intros H. unfold try_except, invoke. rewrite H. reflexivity. Qed.

Lemma guarded_client_error {R : Type} (self : FireProx) (c : call R) s msg p :
  remote R c (provider s) = (Fails (ClientError msg), p) ->
  try_except (invoke remote c) (except_ClientError self) s
  = (Exit msg,
     State p (region s)
       (log s ++ [Called c (Fails (ClientError msg)); Print (help self)])).
Proof.
  intros H. unfold try_except, invoke. rewrite H. cbn.
  rewrite <- app_assoc. reflexivity.
Qed.

Lemma strip_slash_some (u : string) (s : state St) :
  u <> EmptyString -> strip_slash (Some u) s = (Ret (chop_slash u), s).
Proof.
  intros Hu. destruct (last_char_nonempty u Hu) as [c Hc].
  unfold strip_slash, chop_slash. rewrite Hc. reflexivity.
Qed.

Lemma truthy_some (v : pystr) :
  truthy v = true -> exists c u, v = Some (String c u).
Proof. destruct v as [[|c u]|]; simpl; try congruence. eauto. Qed.

End Runs.

(** ** What a run appends to the log *)

Section Appends.

Context {St : Type}.
Variable remote : forall R : Type, call R -> St -> reply R * St.
Variable P : event -> Prop.

Lemma appends_ret {A : Type} (a : A) : appends P (ret (St := St) a).
Proof. intros s. exists []. rewrite app_nil_r. auto. Qed.

Lemma appends_raise {A : Type} (e : exn) : appends P (raise (St := St) (A := A) e).
Proof. intros s. exists []. rewrite app_nil_r. auto. Qed.

Lemma appends_get_region : appends P (get_region (St := St)).
Proof. intros s. exists []. rewrite app_nil_r. auto. Qed.

Lemma appends_set_region (r : pystr) : appends P (set_region (St := St) r).
Proof. intros s. exists []. cbn. rewrite app_nil_r. auto. Qed.

Lemma appends_print (line : string) :
  P (Print line) -> appends P (print (St := St) line).
Proof. intros H s. exists [Print line]. cbn. auto. Qed.

Lemma appends_error {A : Type} (self : FireProx) (status : string) :
  P (Print (help self)) -> appends P (error (St := St) (A := A) self status).
Proof. intros H s. exists [Print (help self)]. cbn. auto. Qed.

Lemma appends_invoke {R : Type} (c : call R) :
  (forall r, P (Called c r)) -> appends P (invoke remote c).
Proof.
  intros H s. unfold invoke.
  destruct (remote R c (provider s)) as [r p].
  exists [Called c r]. destruct r; cbn; auto.
Qed.

Lemma appends_bind {A B : Type} (m : M St A) (k : A -> M St B) :
  appends P m -> (forall a, appends P (k a)) -> appends P (bind m k).
Proof.
  intros Hm Hk s. destruct (Hm s) as (evs & Hl & Hevs).
  unfold bind. destruct (m s) as [[a|status|e] s1]; cbn in Hl.
  - destruct (Hk a s1) as (evs' & Hl' & Hevs').
    exists (evs ++ evs')%list. rewrite Hl', Hl, app_assoc.
    split; [reflexivity|]. apply Forall_app; auto.
  - exists evs. auto.
  - exists evs. auto.
Qed.

Lemma appends_try_except {A : Type} (m : M St A) (h : exn -> option (M St A)) :
  appends P m -> (forall e k, h e = Some k -> appends P k) ->
  appends P (try_except m h).
Proof.
  intros Hm Hh s. destruct (Hm s) as (evs & Hl & Hevs).
  unfold try_except. destruct (m s) as [[a|status|e] s1]; cbn in Hl; eauto.
  destruct (h e) as [k|] eqn:He; [|eauto].
  destruct (Hh e k He s1) as (evs' & Hl' & Hevs').
  exists (evs ++ evs')%list. rewrite Hl', Hl, app_assoc.
  split; [reflexivity|]. apply Forall_app; auto.
Qed.

Lemma appends_try_bare {A : Type} (m h : M St A) :
  appends P m -> appends P h -> appends P (try_bare m h).
Proof.
  intros Hm Hh s. destruct (Hm s) as (evs & Hl & Hevs).
  unfold try_bare. destruct (m s) as [[a|status|e] s1]; cbn in Hl; eauto;
    destruct (Hh s1) as (evs' & Hl' & Hevs');
    exists (evs ++ evs')%list; rewrite Hl', Hl, app_assoc;
    (split; [reflexivity|]); apply Forall_app; auto.
Qed.

Lemma appends_for_each {A : Type} (items : list A) (body : A -> M St unit) :
  (forall x, appends P (body x)) -> appends P (for_each items body).
Proof.
  intros H. induction items as [|x items IH]; cbn [for_each].
  - apply appends_ret.
  - apply appends_bind; auto.
Qed.

Lemma appends_guarded {R : Type} (self : FireProx) (c : call R) :
  (forall r, P (Called c r)) -> P (Print (help self)) ->
  appends P (try_except (invoke remote c) (except_ClientError self)).
Proof.
  intros Hc Hp. apply appends_try_except; [apply appends_invoke; exact Hc|].
  intros [msg| | | |] k Hk; cbn in Hk; try discriminate.
  injection Hk as <-. apply appends_error. exact Hp.
Qed.

Lemma appends_strip_slash (url : pystr) : appends P (strip_slash (St := St) url).
Proof.
  unfold strip_slash. destruct url as [u|]; [|apply appends_raise].
  destruct (PyStr.last_char u); [apply appends_ret|apply appends_raise].
Qed.

End Appends.

Section AppendsMethods.

Context {St : Type}.
Variable remote : forall R : Type, call R -> St -> reply R * St.
Variable P : event -> Prop.
Hypothesis P_print : forall line, P (Print line).

Lemma appends_check (self : FireProx) (b : bool) (status : string) :
  appends P (if b then error (St := St) self status else ret tt).
Proof. destruct b; [apply appends_error|apply appends_ret]; auto. Qed.

Lemma appends_get_resource (self : FireProx) (api_id : pystr) :
  (forall r, P (Called (get_resources api_id) r)) ->
  appends P (get_resource remote self api_id).
Proof.
  intros H. unfold get_resource.
  apply appends_bind; [apply appends_check|]. intros _.
  apply appends_bind; [apply appends_guarded; auto|]. intros items.
  apply appends_ret.
Qed.

Lemma appends_get_integration (self : FireProx) (api_id : pystr) :
  (forall r, P (Called (get_resources api_id) r)) ->
  (forall rid r, P (Called (get_integration_ api_id rid "ANY") r)) ->
  appends P (get_integration remote self api_id).
Proof.
  intros H1 H2. unfold get_integration.
  apply appends_bind; [apply appends_check|]. intros _.
  apply appends_bind; [apply appends_get_resource; auto|]. intros rid.
  apply appends_bind; [apply appends_guarded; auto|]. intros response.
  apply appends_ret.
Qed.

Lemma appends_list_item (self : FireProx) (d : pystr) (item : rest_api) :
  (forall id r, P (Called (get_resources id) r)) ->
  (forall id rid r, P (Called (get_integration_ id rid "ANY") r)) ->
  appends P (list_item remote self d item).
Proof.
  intros H1 H2. unfold list_item.
  apply appends_try_bare; [|apply appends_ret].
  apply appends_bind; [apply appends_get_integration; auto|]. intros uri.
  apply appends_bind; [apply appends_get_region|]. intros r.
  destruct (negb _); [apply appends_print; auto|apply appends_ret].
Qed.

Lemma appends_list_api (self : FireProx) (d : pystr) :
  (forall r, P (Called get_rest_apis r)) ->
  (forall id r, P (Called (get_resources id) r)) ->
  (forall id rid r, P (Called (get_integration_ id rid "ANY") r)) ->
  appends P (list_api remote self d).
Proof.
  intros H0 H1 H2. unfold list_api.
  apply appends_bind; [apply appends_guarded; auto|]. intros items.
  apply appends_bind; [|intros _; apply appends_ret].
  apply appends_for_each. intros item. apply appends_list_item; auto.
Qed.

End AppendsMethods.

(** ** Client errors *)

Section Fatal.

Context {St : Type}.
Variable remote : forall R : Type, call R -> St -> reply R * St.
Variable Q : calls.
Variable self : FireProx.

(** A computation that appends only harmless events. *)
Lemma fatal_of_appends {A : Type} (m : M St A) :
  appends (harmless Q) m -> fatal_except Q self m.
Proof.
  intros H s. destruct (H s) as (evs & Hl & Hevs). exists evs. auto.
Qed.

Lemma harmless_print (line : string) : harmless Q (Print line).
Proof. exact I. Qed.

Lemma fatal_ret {A : Type} (a : A) : fatal_except Q self (ret (St := St) a).
Proof. apply fatal_of_appends, appends_ret. Qed.

Lemma fatal_raise {A : Type} (e : exn) :
  fatal_except Q self (raise (St := St) (A := A) e).
Proof. apply fatal_of_appends, appends_raise. Qed.

Lemma fatal_print (line : string) : fatal_except Q self (print (St := St) line).
Proof. apply fatal_of_appends, appends_print, harmless_print. Qed.

Lemma fatal_get_region : fatal_except Q self (get_region (St := St)).
Proof. apply fatal_of_appends, appends_get_region. Qed.

Lemma fatal_error {A : Type} (status : string) :
  fatal_except Q self (error (St := St) (A := A) self status).
Proof. apply fatal_of_appends, appends_error, harmless_print. Qed.

Lemma fatal_check (b : bool) (status : string) :
  fatal_except Q self (if b then error (St := St) self status else ret tt).
Proof. destruct b; [apply fatal_error|apply fatal_ret]. Qed.

Lemma fatal_strip_slash (url : pystr) :
  fatal_except Q self (strip_slash (St := St) url).
Proof. apply fatal_of_appends, appends_strip_slash. Qed.

Lemma fatal_bind {A B : Type} (m : M St A) (k : A -> M St B) :
  fatal_except Q self m -> (forall a, fatal_except Q self (k a)) ->
  fatal_except Q self (bind m k).
Proof.
  intros Hm Hk s. destruct (Hm s) as (evs & Hl & Hm').
  unfold bind. destruct (m s) as [[a|status|e] s1]; cbn in Hl, Hm'.
  - destruct Hm' as [Hevs|(pre & R & c & msg & _ & _ & Hx)]; [|discriminate].
    destruct (Hk a s1) as (evs' & Hl' & Hk').
    exists (evs ++ evs')%list. rewrite Hl', Hl, app_assoc.
    split; [reflexivity|].
    destruct Hk' as [Hevs'|(pre & R & c & msg & -> & Hpre & Hx)].
    + left. apply Forall_app; auto.
    + right. exists (evs ++ pre)%list, R, c, msg.
      rewrite app_assoc. repeat split; auto. apply Forall_app; auto.
  - exists evs. split; [exact Hl|].
    destruct Hm' as [Hevs|(pre & R & c & msg & E & Hpre & Hx)]; [left; exact Hevs|].
    right. exists pre, R, c, msg. injection Hx as ->. auto.
  - exists evs. split; [exact Hl|].
    destruct Hm' as [Hevs|(pre & R & c & msg & _ & _ & Hx)]; [left; exact Hevs|].
    discriminate.
Qed.

(** The guarded call is where the error is fatal. *)
Lemma fatal_guarded {R : Type} (c : call R) :
  fatal_except Q self (try_except (invoke remote c) (except_ClientError self)).
Proof.
  intros s. unfold try_except, invoke.
  destruct (remote R c (provider s)) as [[v|e] p].
  - exists [Called c (Ok v)]. cbn. split; [reflexivity|].
    left. repeat constructor.
  - destruct e as [msg|msg| | |msg];
      try (eexists [Called c (Fails _)]; cbn; split; [reflexivity|];
           left; repeat constructor).
    exists [Called c (Fails (ClientError msg)); Print (help self)]. cbn.
    rewrite <- app_assoc. split; [reflexivity|].
    right. exists [], R, c, msg. repeat split; auto.
Qed.

Lemma fatal_for_each {A : Type} (items : list A) (body : A -> M St unit) :
  (forall x, fatal_except Q self (body x)) ->
  fatal_except Q self (for_each items body).
Proof.
  intros H. induction items as [|x items IH]; cbn [for_each].
  - apply fatal_ret.
  - apply fatal_bind; auto.
Qed.

Lemma fatal_get_resource (api_id : pystr) :
  fatal_except Q self (get_resource remote self api_id).
Proof.
  unfold get_resource.
  apply fatal_bind; [apply fatal_check|]. intros _.
  apply fatal_bind; [apply fatal_guarded|]. intros items. apply fatal_ret.
Qed.

Lemma fatal_get_integration (api_id : pystr) :
  fatal_except Q self (get_integration remote self api_id).
Proof.
  unfold get_integration.
  apply fatal_bind; [apply fatal_check|]. intros _.
  apply fatal_bind; [apply fatal_get_resource|]. intros rid.
  apply fatal_bind; [apply fatal_guarded|]. intros response. apply fatal_ret.
Qed.

Lemma fatal_create_deployment (api_id : pystr) :
  fatal_except Q self (create_deployment remote self api_id).
Proof.
  unfold create_deployment.
  apply fatal_bind; [apply fatal_check|]. intros _.
  apply fatal_bind; [apply fatal_guarded|]. intros response.
  apply fatal_bind; [apply fatal_get_region|]. intros r. apply fatal_ret.
Qed.

Lemma fatal_update_api (api_id url : pystr) :
  fatal_except Q self (update_api remote self api_id url).
Proof.
  unfold update_api.
  apply fatal_bind; [apply fatal_check|]. intros _.
  apply fatal_bind; [apply fatal_strip_slash|]. intros u.
  apply fatal_bind; [apply fatal_get_resource|]. intros rid.
  destruct (truthy rid); [|apply fatal_error].
  apply fatal_bind; [apply fatal_print|]. intros _.
  apply fatal_bind; [apply fatal_guarded|]. intros response. apply fatal_ret.
Qed.

Lemma fatal_create_api (tld_domain : string -> string) (version_date : string)
    (url : pystr) :
  fatal_except Q self (create_api remote tld_domain version_date self url).
Proof.
  unfold create_api, get_template, store_api.
  apply fatal_bind; [apply fatal_check|]. intros _.
  apply fatal_bind; [apply fatal_print|]. intros _.
  apply fatal_bind.
  { apply fatal_bind; [apply fatal_strip_slash|]. intros u. apply fatal_ret. }
  intros template.
  apply fatal_bind; [apply fatal_guarded|]. intros response.
  apply fatal_bind; [apply fatal_create_deployment|]. intros created.
  apply fatal_print.
Qed.

Lemma fatal_delete_matching (api_id : pystr) (items : list rest_api) :
  fatal_except Q self (delete_matching remote self api_id items).
Proof.
  induction items as [|item items IH]; cbn [delete_matching].
  - apply fatal_ret.
  - destruct (bool_decide _); [|exact IH].
    apply fatal_bind; [apply fatal_guarded|]. intros _. apply fatal_ret.
Qed.

End Fatal.

Section Listing.

Context {St : Type}.
Variable remote : forall R : Type, call R -> St -> reply R * St.
Variable self : FireProx.

Lemma only_harmless (Q : calls) (e : event) : only Q e -> harmless Q e.
Proof. destruct e as [line|R c [v|[msg|msg| | |msg]]]; cbn; auto. Qed.

(** Whatever happens to the lookups of an item, they are harmless and the
    loop goes on. *)
Lemma list_item_harmless (d : pystr) (item : rest_api) :
  appends (harmless lookup_call) (list_item remote self d item).
Proof.
  apply appends_list_item.
  - intros line. exact I.
  - intros id r. apply only_harmless. reflexivity.
  - intros id rid r. apply only_harmless. reflexivity.
Qed.

Lemma list_item_returns (d : pystr) (item : rest_api) (s : state St) :
  fst (list_item remote self d item s) = Ret tt.
Proof.
  unfold list_item, try_bare.
  match goal with |- context [match ?m s with _ => _ end] => destruct (m s) as [[[]| |] s1] end;
    reflexivity.
Qed.

Lemma fatal_list_api (d : pystr) :
  fatal_except lookup_call self (list_api remote self d).
Proof.
  unfold list_api.
  apply fatal_bind; [apply fatal_guarded|]. intros items.
  apply fatal_bind; [|intros _; apply fatal_ret].
  apply fatal_for_each. intros item.
  apply fatal_of_appends, list_item_harmless.
Qed.

Lemma fatal_delete_api (api_id : pystr) :
  fatal_except lookup_call self (delete_api remote self api_id).
Proof.
  unfold delete_api.
  apply fatal_bind; [apply fatal_check|]. intros _.
  apply fatal_bind; [apply fatal_list_api|]. intros items.
  apply fatal_delete_matching.
Qed.

End Listing.

(** ** Update *)

Section Update.

Context {St : Type}.
Variable remote : forall R : Type, call R -> St -> reply R * St.
Variable self : FireProx.

Lemma get_resource_ok (api_id : pystr) (s : state St) items p :
  truthy api_id = true ->
  remote _ (get_resources api_id) (provider s) = (Ok items, p) ->
  get_resource remote self api_id s
  = (Ret (find_proxy_resource items),
     State p (region s) (log s ++ [Called (get_resources api_id) (Ok items)])).
Proof.
  intros Hid Hr. unfold get_resource. rewrite Hid. cbn [negb].
  erewrite bind_ret by reflexivity.
  erewrite bind_ret by (apply guarded_ok; exact Hr).
  reflexivity.
Qed.

(** The run of [update_api] once the wildcard resource is found. *)
Lemma update_api_run (api_id : pystr) (u0 : string) (s : state St)
    items p r p' :
  truthy api_id = true ->
  u0 <> EmptyString ->
  remote _ (get_resources api_id) (provider s) = (Ok items, p) ->
  truthy (find_proxy_resource items) = true ->
  remote _ (update_integration api_id (find_proxy_resource items) "ANY"
              "replace" "/uri" (chop_slash u0 ++ "/" ++ "{proxy}")) p = (r, p') ->
  let request :=
    update_integration api_id (find_proxy_resource items) "ANY"
      "replace" "/uri" (chop_slash u0 ++ "/" ++ "{proxy}") in
  let before :=
    [Called (get_resources api_id) (Ok items);
     Print (found_line (find_proxy_resource items) api_id);
     Called request r] in
  update_api remote self api_id (Some u0) s
  = match r with
    | Ok response =>
        (Ret (String.eqb (PyStr.replace "/{proxy}" "" (ig_uri response))
                (chop_slash u0)),
         State p' (region s) (log s ++ before))
    | Fails (ClientError msg) =>
        (Exit msg, State p' (region s) (log s ++ before ++ [Print (help self)]))
    | Fails e => (Raise e, State p' (region s) (log s ++ before))
    end.
Proof.
  intros Hid Hu Hres Hrid Hupd request before.
  unfold update_api. rewrite Hid. cbn [orb negb].
  erewrite bind_ret by reflexivity.
  erewrite bind_ret by (apply strip_slash_some; exact Hu).
  erewrite bind_ret by (apply get_resource_ok; eassumption).
  rewrite Hrid.
  erewrite bind_ret by reflexivity.
  unfold bind, try_except, invoke. cbn [provider region log].
  rewrite Hupd.
  destruct r as [response|[msg|msg| | |msg]]; cbn;
    rewrite <- ?app_assoc; reflexivity.
Qed.

End Update.

(** ** The URL that is used *)

Section Template.

Context {St : Type}.
Variable tld_domain : string -> string.
Variable version_date : string.

Lemma get_template_run (self : FireProx) (u0 : string) (s : state St) :
  url self = Some u0 -> u0 <> EmptyString ->
  get_template tld_domain version_date self s
  = (Ret (render version_date (chop_slash u0)
            (title_of tld_domain (chop_slash u0))), s).
Proof.
  intros Hurl Hu. unfold get_template. rewrite Hurl.
  erewrite bind_ret by (apply strip_slash_some; exact Hu).
  reflexivity.
Qed.

End Template.

(** C6: a URL that ends in a slash is used without that one slash, by the
    generator of the definition document and by update, whose request
    carries it before the wildcard suffix; a URL that does not end in a
    slash is used as it is. *)
Theorem trailing_slash_stripped :
  forall (St : Type) (remote : forall R : Type, call R -> St -> reply R * St)
         (tld_domain : string -> string) (version_date : string)
         (self : FireProx) (s : state St) (u0 : string),
    u0 <> EmptyString ->
    (forall w, u0 = w ++ "/" -> chop_slash u0 = w)
    /\ (forall c, PyStr.last_char u0 = Some c -> c <> "/"%char -> chop_slash u0 = u0)
    /\ (url self = Some u0 ->
        get_template tld_domain version_date self s
        = (Ret (render version_date (chop_slash u0)
                  (title_of tld_domain (chop_slash u0))), s))
    /\ (forall api_id items p r p',
          truthy api_id = true ->
          remote _ (get_resources api_id) (provider s) = (Ok items, p) ->
          truthy (find_proxy_resource items) = true ->
          remote _ (update_integration api_id (find_proxy_resource items) "ANY"
                      "replace" "/uri" (chop_slash u0 ++ "/" ++ "{proxy}")) p
          = (r, p') ->
          exists rest,
            log (snd (update_api remote self api_id (Some u0) s))
            = (log s
                 ++ [Called (get_resources api_id) (Ok items);
                     Print (found_line (find_proxy_resource items) api_id);
                     Called (update_integration api_id (find_proxy_resource items)
                               "ANY" "replace" "/uri"
                               (chop_slash u0 ++ "/" ++ "{proxy}")) r]
                 ++ rest)%list).
Proof.
  intros St remote tld_domain version_date self s u0 Hu.
  split; [intros w ->; apply chop_slash_app|].
  split; [intros c; apply chop_slash_other|].
  split; [intros Hurl; apply get_template_run; assumption|].
  intros api_id items p r p' Hid Hres Hrid Hupd.
  rewrite (update_api_run remote self api_id u0 s items p r p' Hid Hu Hres Hrid Hupd).
  destruct r as [response|[msg|msg| | |msg]]; cbn [snd log];
    first [exists [Print (help self)]; reflexivity
          |exists []; rewrite app_nil_r; reflexivity].
Qed.

Lemma trailing_slash_stripped_witness :
  chop_slash "https://example.com/" = "https://example.com"
  /\ exists rest,
       log (snd (update_api Demo.serve (Demo.args (Some "abc123") (Some "https://example.com/"))
                   (Some "abc123") (Some "https://example.com/") Demo.start))
       = ([Called (get_resources (Some "abc123"))
             (Ok [Resource "r0" "/"; Resource "r1" "/{proxy+}"]);
           Print "Found resource r1 for abc123!";
           Called (update_integration (Some "abc123") (Some "r1") "ANY" "replace"
                     "/uri" "https://example.com/{proxy}")
             (Ok (Integration "https://example.com/{proxy}"))]
          ++ rest)%list.
Proof.
  pose proof (trailing_slash_stripped Demo.cloud Demo.serve Demo.domain
                Demo.version_date
                (Demo.args (Some "abc123") (Some "https://example.com/"))
                Demo.start "https://example.com/") as H.
  destruct H as (H1 & _ & _ & H4); [discriminate|].
  split; [apply (H1 "https://example.com"); reflexivity|].
  apply (H4 (Some "abc123") [Resource "r0" "/"; Resource "r1" "/{proxy+}"]
            Demo.account (Ok (Integration "https://example.com/{proxy}"))
            (Demo.rewire (Some "abc123") "https://example.com/{proxy}" Demo.account));
    reflexivity.
Defined.

(** ** The definition document *)

(** Where the segments of the template lie: the one before the first URL
    opens the root route and ends where the URI of its integration
    starts; the one between the two URLs closes that URI with a slash,
    opens the wildcard route and ends where the URI of its integration
    starts; the last one closes that URI with the wildcard suffix. *)
Lemma segments_routes :
  (exists a b,
     seg_root = a ++ PyStr.dquote "'/': {" ++ b ++ PyStr.dquote "'uri': '")
  /\ PyStr.occurrences (PyStr.dquote "'/{proxy+}': {") seg_root = 0
  /\ (exists a b,
        seg_wildcard
        = PyStr.dquote "/'" ++ a ++ PyStr.dquote "'/{proxy+}': {" ++ b
            ++ PyStr.dquote "'uri': '")
  /\ (exists c, seg_tail = PyStr.dquote "/{proxy}'" ++ c)
  /\ PyStr.occurrences "{{url}}" template = 2.
Proof.
  split.
  { exists (Cut.before (PyStr.dquote "'/': {") seg_root),
           (PyStr.drop_last
              (Cut.before (PyStr.dquote "'uri': '")
                 (Cut.after (PyStr.dquote "'/': {") seg_root) ++ "x")).
    vm_compute. reflexivity. }
  split; [vm_compute; reflexivity|].
  split.
  { exists (Cut.before (PyStr.dquote "'/{proxy+}': {") (Cut.drop 2 seg_wildcard)),
           (PyStr.drop_last
              (Cut.before (PyStr.dquote "'uri': '")
                 (Cut.after (PyStr.dquote "'/{proxy+}': {") seg_wildcard) ++ "x")).
    vm_compute. reflexivity. }
  split; [|vm_compute; reflexivity].
  exists (Cut.drop 9 seg_tail). vm_compute. reflexivity.
Qed.

(** The title stands between the key ["title"] and a double quote. *)
Lemma title_slot :
  (exists a, seg_title = a ++ PyStr.dquote "'title': '")
  /\ seg_root = dq ++ Cut.drop 1 seg_root.
Proof.
  split; [|vm_compute; reflexivity].
  exists (Cut.before (PyStr.dquote "'title': '") seg_title).
  vm_compute. reflexivity.
Qed.

Lemma title_slot_layout (sv v st a key t sr sr' rest : string) :
  st = a ++ key -> sr = dq ++ sr' ->
  sv ++ v ++ st ++ t ++ sr ++ rest
  = (sv ++ v ++ a) ++ key ++ t ++ dq ++ sr' ++ rest.
Proof. intros -> ->. rewrite !append_assoc. reflexivity. Qed.

(** C8: the title of the document is ['fireprox_'] followed by what
    [tldextract] gives as the domain of the stripped URL, and it stands in
    the document as the value of the key [title]; for
    [https://example.com/], whose domain [tldextract] gives as [example],
    it is [fireprox_example]. *)
Theorem title_is_fireprox_domain :
  forall (St : Type) (tld_domain : string -> string) (version_date : string)
         (self : FireProx) (s : state St) (u0 : string),
    url self = Some u0 ->
    u0 <> EmptyString ->
    PyStr.occurrences "{{title}}" (chop_slash u0) = 0 ->
    PyStr.occurrences "{{version_date}}" (chop_slash u0) = 0 ->
    PyStr.occurrences "{{version_date}}" (tld_domain (chop_slash u0)) = 0 ->
    (exists before after,
       get_template tld_domain version_date self s
       = (Ret (before ++ PyStr.dquote "'title': '"
                 ++ ("fireprox_" ++ tld_domain (chop_slash u0))
                 ++ dq ++ after), s))
    /\ (u0 = "https://example.com/" ->
        tld_domain "https://example.com" = "example" ->
        title_of tld_domain (chop_slash u0) = "fireprox_example").
Proof.
  intros St tld_domain version_date self s u0 Hurl Hu H1 H2 H3. split.
  - assert (H3' : PyStr.occurrences "{{version_date}}"
                    (title_of tld_domain (chop_slash u0)) = 0).
    { unfold title_of. exact H3. }
    rewrite (get_template_run tld_domain version_date self u0 s Hurl Hu).
    rewrite (render_segments version_date _ _ H1 H2 H3').
    destruct title_slot as [[a Ha] Hr].
    exists (seg_version ++ version_date ++ a),
           (Cut.drop 1 seg_root ++ chop_slash u0 ++ seg_wildcard
              ++ chop_slash u0 ++ seg_tail).
    unfold title_of.
    exact (f_equal (fun d => (Ret d, s))
             (title_slot_layout seg_version version_date seg_title a _
                ("fireprox_" ++ tld_domain (chop_slash u0)) seg_root _ _ Ha Hr)).
  - intros -> Hd. unfold title_of.
    change (chop_slash "https://example.com/") with "https://example.com".
    rewrite Hd. reflexivity.
Qed.

Lemma title_is_fireprox_domain_witness :
  title_of Demo.domain (chop_slash "https://example.com/") = "fireprox_example".
Proof.
  apply (title_is_fireprox_domain Demo.cloud Demo.domain Demo.version_date
           (Demo.args None (Some "https://example.com/")) Demo.start
           "https://example.com/");
    first [reflexivity|discriminate].
Defined.

(** ** The result of update *)

(** C1, as stated, fails on a URL that ends in a slash: the patch call
    answers the URI [https://example.com/{proxy}], which without its
    suffix is not the requested [https://example.com/], and [update_api]
    returns true. *)
Lemma update_api_true_on_slash_url :
  let r := update_api Demo.serve
             (Demo.args (Some "abc123") (Some "https://example.com/"))
             (Some "abc123") (Some "https://example.com/") Demo.start in
  fst r = Ret true
  /\ log (snd r)
     = [Called (get_resources (Some "abc123"))
          (Ok [Resource "r0" "/"; Resource "r1" "/{proxy+}"]);
        Print "Found resource r1 for abc123!";
        Called (update_integration (Some "abc123") (Some "r1") "ANY" "replace"
                  "/uri" "https://example.com/{proxy}")
          (Ok (Integration "https://example.com/{proxy}"))]
  /\ PyStr.replace "/{proxy}" "" "https://example.com/{proxy}"
     <> "https://example.com/".
Proof.
  cbv zeta. split; [reflexivity|]. split; [reflexivity|].
  vm_compute. discriminate.
Qed.

(** C3, on the code: with a gateway ID and no URL the check of the
    arguments passes and indexing the URL raises, [TypeError] for [None]
    and [IndexError] for the empty string; nothing is printed and
    nothing is called. *)
Theorem update_api_without_url_raises :
  forall (St : Type) (remote : forall R : Type, call R -> St -> reply R * St)
         (self : FireProx) (s : state St),
    update_api remote self (Some "abc123") None s = (Raise TypeError, s)
    /\ update_api remote self (Some "abc123") (Some "") s = (Raise IndexError, s).
Proof. intros St remote self s. split; reflexivity. Qed.

(** ** Credentials *)

(** C4, on the code: with keys and a session token and no profile, the
    keywords of the session hold the token under [aws_sessoin_token];
    the keyword [aws_session_token] is absent. *)
Theorem session_token_keyword_misspelled :
  exists details : gmap string pystr,
    session_details (Demo.keys (Some "FwoGZXIvYXdzE")) = Some details
    /\ details !! "aws_access_key_id" = Some (Some "AKIAEXAMPLE")
    /\ details !! "aws_secret_access_key" = Some (Some "secret")
    /\ details !! "aws_sessoin_token" = Some (Some "FwoGZXIvYXdzE")
    /\ details !! "aws_session_token" = None.
Proof.
  eexists. split; [reflexivity|]. repeat split; vm_compute; reflexivity.
Qed.

Section Credentials.

Context {St : Type}.
Variable remote : forall R : Type, call R -> St -> reply R * St.
Variable self : FireProx.

(** The ambient credentials are tried through a client of [boto3]. *)
Lemma try_instance_profile_first_call (s : state St) :
  exists r evs,
    log (snd (_try_instance_profile remote s))
    = (log s
         ++ Called (boto3_client (if truthy (region s) then region s else None)) r
         :: evs)%list.
Proof.
  unfold _try_instance_profile, try_bare, bind, get_region.
  destruct (truthy (region s)); cbn [negb]; unfold invoke at 1;
    cbn [provider region log];
    match goal with
    | |- context [remote _ ?c (provider s)] =>
        destruct (remote _ c (provider s)) as [[cfg|e] p]
    end; cbn;
    try (eexists _, []; reflexivity);
    unfold invoke; cbn [provider region log];
    destruct (remote _ get_account p) as [[[]|e] p1]; cbn;
    rewrite <- ?app_assoc; eexists _, _; reflexivity.
Qed.

(** With a dictionary of keywords, the first thing [load_creds] does is
    to make the session from it and the region. *)
Lemma load_creds_session (details : gmap string pystr) (s : state St) :
  truthy (access_key self) || truthy (secret_access_key self)
    || truthy (profile_name self) = true ->
  session_details self = Some details ->
  exists r evs,
    log (snd (load_creds remote self s))
    = (log s
         ++ Called (boto3_Session (<[ "region_name" := region s ]> details)) r
         :: evs)%list.
Proof.
  intros Hany Hd. unfold load_creds. rewrite Hany, Hd. cbn [negb].
  unfold try_except, bind, get_region. unfold invoke at 1.
  cbn [provider region log].
  destruct (remote _ (boto3_Session _) (provider s)) as [[sr|e] p]; cbn.
  - unfold invoke. cbn [provider region log].
    destruct (remote _ session_client p) as [[[]|e] p1]; cbn.
    + rewrite <- app_assoc. eexists _, _. reflexivity.
    + destruct e; cbn; rewrite <- ?app_assoc; eexists _, _; reflexivity.
  - destruct e; cbn; rewrite <- ?app_assoc; eexists _, _; reflexivity.
Qed.

End Credentials.

(** C9: the order of the resolution.  Without profile and keys the
    ambient credentials are tried; with a profile the session is made
    from the profile, whatever the keys; without a profile and with both
    keys the session is made from the keys; otherwise the run ends with
    the usage error. *)
Theorem credential_resolution_order :
  forall (St : Type) (remote : forall R : Type, call R -> St -> reply R * St)
         (self : FireProx) (s : state St),
    (truthy (profile_name self) = false ->
     truthy (access_key self) = false ->
     truthy (secret_access_key self) = false ->
     load_creds remote self s = _try_instance_profile remote s
     /\ exists r evs,
          log (snd (load_creds remote self s))
          = (log s
               ++ Called (boto3_client (if truthy (region s) then region s else None)) r
               :: evs)%list)
    /\ (truthy (profile_name self) = true ->
        exists r evs,
          log (snd (load_creds remote self s))
          = (log s
               ++ Called (boto3_Session
                            (<[ "region_name" := region s ]>
                               {[ "profile_name" := profile_name self ]})) r
               :: evs)%list)
    /\ (truthy (profile_name self) = false ->
        truthy (access_key self) = true ->
        truthy (secret_access_key self) = true ->
        exists (details : gmap string pystr) r evs,
          log (snd (load_creds remote self s))
          = (log s ++ Called (boto3_Session details) r :: evs)%list
          /\ details !! "aws_access_key_id" = Some (access_key self)
          /\ details !! "aws_secret_access_key" = Some (secret_access_key self)
          /\ details !! "profile_name" = None)
    /\ (truthy (profile_name self) = false ->
        truthy (access_key self) && truthy (secret_access_key self) = false ->
        truthy (access_key self) || truthy (secret_access_key self) = true ->
        load_creds remote self s
        = (Exit "Please configure a profile or provice access keys",
           State (provider s) (region s) (log s ++ [Print (help self)]))).
Proof.
  intros St remote self s. split; [|split; [|split]].
  - intros Hp Ha Hs.
    assert (E : load_creds remote self s = _try_instance_profile remote s).
    { unfold load_creds. rewrite Hp, Ha, Hs. reflexivity. }
    split; [exact E|]. rewrite E. apply try_instance_profile_first_call.
  - intros Hp. apply load_creds_session.
    + rewrite Hp. apply orb_true_r.
    + unfold session_details. rewrite Hp. reflexivity.
  - intros Hp Ha Hs.
    destruct (load_creds_session remote self
                (if truthy (session_token self)
                 then <[ "aws_sessoin_token" := session_token self ]>
                        (<[ "aws_secret_access_key" := secret_access_key self ]>
                           {[ "aws_access_key_id" := access_key self ]})
                 else <[ "aws_secret_access_key" := secret_access_key self ]>
                        {[ "aws_access_key_id" := access_key self ]}) s)
      as (r & evs & Hl).
    + rewrite Ha. reflexivity.
    + unfold session_details. rewrite Hp, Ha, Hs. cbn [andb].
      destruct (truthy (session_token self)); reflexivity.
    + eexists _, r, evs. split; [exact Hl|].
      destruct (truthy (session_token self)); repeat split;
        by simplify_map_eq.
  - intros Hp Hb Ho. unfold load_creds, session_details.
    rewrite Hp, Hb. rewrite orb_false_r, Ho. reflexivity.
Qed.

Lemma credential_resolution_order_witness :
  load_creds Demo.serve
    {| profile_name := None; access_key := Some "AKIAEXAMPLE";
       secret_access_key := None; session_token := None; command := "list";
       api_id := None; url := None; help := "usage: fire.py" |}
    Demo.start
  = (Exit "Please configure a profile or provice access keys",
     State Demo.account (Some "us-east-1") [Print "usage: fire.py"]).
Proof.
  apply (credential_resolution_order Demo.cloud Demo.serve
           {| profile_name := None; access_key := Some "AKIAEXAMPLE";
              secret_access_key := None; session_token := None;
              command := "list"; api_id := None; url := None;
              help := "usage: fire.py" |}
           Demo.start); reflexivity.
Defined.

(** ** Listing and deleting *)

Section ListDelete.

Context {St : Type}.
Variable remote : forall R : Type, call R -> St -> reply R * St.
Variable self : FireProx.








End ListDelete.






(** C2, as amended: a call that raises [ClientError] is the last call of
    the run, the help text is printed next and the run ends in
    [sys.exit] with the message of the error, in update, create and the
    lookups they make, and in list and delete for the listing and the
    deletion requests; the body of the loop of [list_api] always
    completes, so a lookup that fails inside it only skips the item. *)
Theorem client_error_fatal_outside_listing_loop :
  forall (St : Type) (remote : forall R : Type, call R -> St -> reply R * St)
         (tld_domain : string -> string) (version_date : string)
         (self : FireProx),
    (forall api_id url,
        fatal_except no_call self (update_api remote self api_id url))
    /\ (forall url,
          fatal_except no_call self
            (create_api remote tld_domain version_date self url))
    /\ (forall api_id, fatal_except no_call self (get_resource remote self api_id))
    /\ (forall api_id,
          fatal_except no_call self (get_integration remote self api_id))
    /\ (forall api_id,
          fatal_except no_call self (create_deployment remote self api_id))
    /\ (forall deleted_api_id,
          fatal_except lookup_call self (list_api remote self deleted_api_id))
    /\ (forall api_id,
          fatal_except lookup_call self (delete_api remote self api_id))
    /\ (forall deleted_api_id item s,
          fst (list_item remote self deleted_api_id item s) = Ret tt).
Proof.
  intros St remote tld_domain version_date self.
  split; [intros; apply fatal_update_api|].
  split; [intros; apply fatal_create_api|].
  split; [intros; apply fatal_get_resource|].
  split; [intros; apply fatal_get_integration|].
  split; [intros; apply fatal_create_deployment|].
  split; [intros; apply fatal_list_api|].
  split; [intros; apply fatal_delete_api|].
  intros. apply list_item_returns.
Qed.

(** An update of a gateway that the account does not have: the lookup of
    its resources raises [ClientError] and the run ends there. *)
Example update_api_unknown_gateway :
  update_api Demo.serve (Demo.args (Some "nope00") (Some "https://example.com"))
    (Some "nope00") (Some "https://example.com") Demo.start
  = (Exit "NotFoundException",
     State Demo.account (Some "us-east-1")
       [Called (get_resources (Some "nope00")) (Fails (ClientError "NotFoundException"));
        Print "usage: fire.py"]).
Proof. reflexivity. Qed.

(** C2, as stated, fails in [list_api]: the lookup of the integration of
    the first gateway raises [ClientError], the help text is printed, and
    the listing goes on to the next gateway and returns. *)
Lemma list_api_survives_client_error :
  let r := list_api Demo.serve (Demo.args None None) None Demo.start in
  fst r = Ret [Demo.loose; Demo.abc; Demo.other]
  /\ firstn 5 (log (snd r))
     = [Called get_rest_apis (Ok [Demo.loose; Demo.abc; Demo.other]);
        Called (get_resources (Some "qqq555"))
          (Ok [Resource "r0" "/"; Resource "r1" "/{proxy+}"]);
        Called (get_integration_ (Some "qqq555") (Some "r1") "ANY")
          (Fails (ClientError "NotFoundException"));
        Print "usage: fire.py";
        Called (get_resources (Some "abc123"))
          (Ok [Resource "r0" "/"; Resource "r1" "/{proxy+}"])].
Proof. cbv zeta. split; reflexivity. Qed.

(** On the URL of the examples the count agrees with the layout: the
    stripped URL occurs in the document twice. *)
Example example_url_occurs_twice :
  PyStr.occurrences "https://example.com"
    (render "2026-01-01T00:00:00Z" "https://example.com" "fireprox_example") = 2.
Proof. vm_compute. reflexivity. Qed.

(** * Further properties of the code *)

(** ** Looking up the wildcard resource *)

Section Lookup.

Context {St : Type}.
Variable remote : forall R : Type, call R -> St -> reply R * St.
Variable self : FireProx.

Lemma find_proxy_resource_none (items : list resource) :
  find_proxy_resource items = None <-> no_wildcard items.
Proof.
  unfold no_wildcard. induction items as [|item items IH]; cbn [find_proxy_resource].
  - split; [constructor|reflexivity].
  - destruct (String.eqb_spec (rs_path item) "/{proxy+}") as [E|N].
    + split; [discriminate|]. intros H. inversion H. contradiction.
    + rewrite IH. split; [intros H; constructor; assumption|].
      intros H. inversion H. assumption.
Qed.

Lemma find_proxy_resource_some (items : list resource) (id : string) :
  find_proxy_resource items = Some id <->
  exists skipped item rest,
    items = (skipped ++ item :: rest)%list
    /\ no_wildcard skipped
    /\ rs_path item = "/{proxy+}"
    /\ rs_id item = id.
Proof.
  unfold no_wildcard. induction items as [|item items IH]; cbn [find_proxy_resource].
  - split; [discriminate|].
    intros (skipped & x & rest & E & _). destruct skipped; discriminate.
  - destruct (String.eqb_spec (rs_path item) "/{proxy+}") as [Ep|Np].
    + split.
      * intros [= <-]. exists [], item, items. repeat split; auto.
      * intros (skipped & x & rest & E & Hs & Hx & Hid).
        destruct skipped as [|y skipped]; cbn in E.
        -- injection E as -> _. congruence.
        -- injection E as -> _. inversion Hs. contradiction.
    + rewrite IH. split.
      * intros (skipped & x & rest & -> & Hs & Hx & Hid).
        exists (item :: skipped), x, rest. repeat split; auto.
      * intros (skipped & x & rest & E & Hs & Hx & Hid).
        destruct skipped as [|y skipped]; cbn in E.
        -- injection E as -> _. contradiction.
        -- injection E as -> ->. inversion Hs.
           exists skipped, x, rest. repeat split; auto.
Qed.

End Lookup.

(** X1: with a gateway ID and a lookup that answers, [get_resource] makes
    one request and returns the ID of the first resource whose path is
    the wildcard path, and [None] exactly when no resource has it. *)
Theorem get_resource_first_wildcard :
  forall (St : Type) (remote : forall R : Type, call R -> St -> reply R * St)
         (self : FireProx) (api_id : pystr) (s : state St)
         (items : list resource) (p : St),
    truthy api_id = true ->
    remote _ (get_resources api_id) (provider s) = (Ok items, p) ->
    exists found,
      get_resource remote self api_id s
      = (Ret found,
         State p (region s) (log s ++ [Called (get_resources api_id) (Ok items)]))
      /\ (found = None <-> no_wildcard items)
      /\ (forall id,
            found = Some id <->
            exists skipped item rest,
              items = (skipped ++ item :: rest)%list
              /\ no_wildcard skipped
              /\ rs_path item = "/{proxy+}"
              /\ rs_id item = id).
Proof.
  intros St remote self api_id s items p Hid Hr.
  exists (find_proxy_resource items).
  split; [apply get_resource_ok; assumption|].
  split; [apply find_proxy_resource_none|].
  intros id. apply find_proxy_resource_some.
Qed.

Lemma get_resource_first_wildcard_witness :
  exists found,
    get_resource Demo.serve (Demo.args None None) (Some "abc123") Demo.start
    = (Ret found,
       State Demo.account (Some "us-east-1")
         [Called (get_resources (Some "abc123"))
            (Ok [Resource "r0" "/"; Resource "r1" "/{proxy+}"])])
    /\ (found = None <-> no_wildcard [Resource "r0" "/"; Resource "r1" "/{proxy+}"])
    /\ (forall id,
          found = Some id <->
          exists skipped item rest,
            [Resource "r0" "/"; Resource "r1" "/{proxy+}"]
            = (skipped ++ item :: rest)%list
            /\ no_wildcard skipped
            /\ rs_path item = "/{proxy+}"
            /\ rs_id item = id).
Proof.
  apply (get_resource_first_wildcard Demo.cloud Demo.serve (Demo.args None None)
           (Some "abc123") Demo.start); reflexivity.
Defined.

(** X2: without a gateway ID, [get_resource], [get_integration],
    [create_deployment] and [delete_api] print the help text and end in
    [sys.exit] with the same usage message; no request is made. *)
Theorem missing_api_id_is_usage_error :
  forall (St : Type) (remote : forall R : Type, call R -> St -> reply R * St)
         (self : FireProx) (api_id : pystr) (s : state St),
    truthy api_id = false ->
    let ended (A : Type) : outcome A * state St :=
      (Exit "Please provide a valid API ID",
       State (provider s) (region s) (log s ++ [Print (help self)])) in
    get_resource remote self api_id s = ended pystr
    /\ get_integration remote self api_id s = ended string
    /\ create_deployment remote self api_id s = ended (string * string)%type
    /\ delete_api remote self api_id s = ended bool.
Proof.
  intros St remote self api_id s Hid ended.
  unfold get_resource, get_integration, create_deployment, delete_api.
  rewrite Hid. repeat split; reflexivity.
Qed.

Lemma missing_api_id_is_usage_error_witness :
  delete_api Demo.serve (Demo.args None None) (Some "") Demo.start
  = (Exit "Please provide a valid API ID",
     State Demo.account (Some "us-east-1") [Print "usage: fire.py"]).
Proof.
  apply (missing_api_id_is_usage_error Demo.cloud Demo.serve
           (Demo.args None None) (Some "") Demo.start). reflexivity.
Defined.

(** X3: [update_api] without a gateway ID ends in a usage error before
    any request: with a URL the message is the one of [get_resource],
    without a URL it is the one of [update_api] itself. *)
Theorem update_api_without_api_id :
  forall (St : Type) (remote : forall R : Type, call R -> St -> reply R * St)
         (self : FireProx) (api_id url : pystr) (s : state St),
    truthy api_id = false ->
    update_api remote self api_id url s
    = (Exit (if truthy url
             then "Please provide a valid API ID"
             else "Please provide a valid API ID and URL end-point"),
       State (provider s) (region s) (log s ++ [Print (help self)])).
Proof.
  intros St remote self api_id url s Hid.
  unfold update_api. rewrite Hid. cbn [orb].
  destruct url as [[|c u]|]; cbn [truthy negb]; try reflexivity.
  erewrite bind_ret by reflexivity.
  erewrite bind_ret by (apply strip_slash_some; discriminate).
  erewrite bind_exit; [reflexivity|].
  unfold get_resource. rewrite Hid. reflexivity.
Qed.

Lemma update_api_without_api_id_witness :
  update_api Demo.serve (Demo.args None None) None (Some "https://example.com")
    Demo.start
  = (Exit "Please provide a valid API ID",
     State Demo.account (Some "us-east-1") [Print "usage: fire.py"]).
Proof.
  apply (update_api_without_api_id Demo.cloud Demo.serve (Demo.args None None)
           None (Some "https://example.com") Demo.start). reflexivity.
Defined.

(** X4: when the gateway has no wildcard resource, [update_api] sends no
    patch: after the lookup it prints the help text and ends in
    [sys.exit] with the message that names the gateway. *)
Theorem update_api_without_wildcard_resource :
  forall (St : Type) (remote : forall R : Type, call R -> St -> reply R * St)
         (self : FireProx) (api_id : pystr) (u0 : string) (s : state St)
         (items : list resource) (p : St),
    truthy api_id = true ->
    u0 <> EmptyString ->
    remote _ (get_resources api_id) (provider s) = (Ok items, p) ->
    no_wildcard items ->
    update_api remote self api_id (Some u0) s
    = (Exit ("Unable to update, no valid resource for " ++ py_str api_id),
       State p (region s)
         (log s ++ [Called (get_resources api_id) (Ok items); Print (help self)])).
Proof.
  intros St remote self api_id u0 s items p Hid Hu Hres Hno.
  apply find_proxy_resource_none in Hno.
  unfold update_api. rewrite Hid. cbn [orb negb].
  erewrite bind_ret by reflexivity.
  erewrite bind_ret by (apply strip_slash_some; exact Hu).
  erewrite bind_ret by (apply get_resource_ok; eassumption).
  rewrite Hno. cbn. rewrite <- app_assoc. reflexivity.
Qed.

Lemma update_api_without_wildcard_resource_witness :
  update_api Demo.serve (Demo.args None None) (Some "zzz999")
    (Some "https://example.com/") Demo.start
  = (Exit "Unable to update, no valid resource for zzz999",
     State Demo.account (Some "us-east-1")
       [Called (get_resources (Some "zzz999")) (Ok [Resource "r0" "/"]);
        Print "usage: fire.py"]).
Proof.
  apply (update_api_without_wildcard_resource Demo.cloud Demo.serve
           (Demo.args None None) (Some "zzz999") "https://example.com/"
           Demo.start [Resource "r0" "/"] Demo.account);
    first [reflexivity|discriminate|repeat constructor; discriminate].
Defined.

(** X5: when the gateway has no wildcard resource, [get_integration]
    still asks for the integration, with [None] as the resource: the
    result of [get_resource] is passed on unchecked. *)
Theorem get_integration_without_wildcard_resource :
  forall (St : Type) (remote : forall R : Type, call R -> St -> reply R * St)
         (self : FireProx) (api_id : pystr) (s : state St)
         (items : list resource) (p : St),
    truthy api_id = true ->
    remote _ (get_resources api_id) (provider s) = (Ok items, p) ->
    no_wildcard items ->
    exists r rest,
      log (snd (get_integration remote self api_id s))
      = (log s
           ++ [Called (get_resources api_id) (Ok items);
               Called (get_integration_ api_id None "ANY") r]
           ++ rest)%list.
Proof.
  intros St remote self api_id s items p Hid Hres Hno.
  apply find_proxy_resource_none in Hno.
  unfold get_integration. rewrite Hid. cbn [negb].
  erewrite bind_ret by reflexivity.
  erewrite bind_ret by (apply get_resource_ok; eassumption).
  rewrite Hno. unfold bind, try_except, invoke. cbn [provider region log].
  destruct (remote _ (get_integration_ api_id None "ANY") p) as [[v|e] p1].
  - exists (Ok v), []. cbn. rewrite <- app_assoc. reflexivity.
  - exists (Fails e). destruct e; cbn; rewrite <- ?app_assoc;
      first [exists [Print (help self)]; reflexivity|exists []; reflexivity].
Qed.

Lemma get_integration_without_wildcard_resource_witness :
  exists r rest,
    log (snd (get_integration Demo.serve (Demo.args None None) (Some "zzz999")
                Demo.start))
    = ([] ++ [Called (get_resources (Some "zzz999")) (Ok [Resource "r0" "/"]);
              Called (get_integration_ (Some "zzz999") None "ANY") r]
          ++ rest)%list.
Proof.
  apply (get_integration_without_wildcard_resource Demo.cloud Demo.serve
           (Demo.args None None) (Some "zzz999") Demo.start
           [Resource "r0" "/"] Demo.account);
    first [reflexivity|repeat constructor; discriminate].
Defined.

(** ** Creating a gateway *)

Section Create.

Context {St : Type}.
Variable remote : forall R : Type, call R -> St -> reply R * St.
Variable tld_domain : string -> string.
Variable version_date : string.
Variable self : FireProx.

Lemma create_deployment_run (api_id : pystr) (s : state St) r p :
  truthy api_id = true ->
  remote _ (create_deployment_ api_id "fireprox" "FireProx Prod"
              "FireProx Production Deployment") (provider s) = (r, p) ->
  let request :=
    create_deployment_ api_id "fireprox" "FireProx Prod"
      "FireProx Production Deployment" in
  create_deployment remote self api_id s
  = match r with
    | Ok response =>
        (Ret (dp_id response, invoke_url api_id (region s)),
         State p (region s) (log s ++ [Called request r]))
    | Fails (ClientError msg) =>
        (Exit msg,
         State p (region s) (log s ++ [Called request r; Print (help self)]))
    | Fails e => (Raise e, State p (region s) (log s ++ [Called request r]))
    end.
Proof.
  intros Hid Hr request. unfold create_deployment. rewrite Hid. cbn [negb].
  erewrite bind_ret by reflexivity.
  unfold bind, try_except, invoke. cbn [provider region log]. rewrite Hr.
  destruct r as [response|[msg|msg| | |msg]]; cbn;
    rewrite <- ?app_assoc; reflexivity.
Qed.

End Create.

(** X6: the run of [create_api] on a URL that is also [self.url], when
    the import answers with a gateway that has an ID: the definition
    document rendered from the stripped URL is imported with a regional
    endpoint, then the stage [fireprox] is deployed on the new gateway.
    When the deployment answers, the summary line is printed last; when
    it raises [ClientError] the run ends in [sys.exit] after the help
    text, and the gateway that was imported is left in place: no request
    follows. *)
Theorem create_api_imports_then_deploys :
  forall (St : Type) (remote : forall R : Type, call R -> St -> reply R * St)
         (tld_domain : string -> string) (version_date : string)
         (self : FireProx) (u0 : string) (s : state St)
         (response : rest_api) (p1 : St) (r : reply deployment) (p2 : St),
    url self = Some u0 ->
    u0 <> EmptyString ->
    let body :=
      render version_date (chop_slash u0) (title_of tld_domain (chop_slash u0)) in
    let deploy :=
      create_deployment_ (Some (ra_id response)) "fireprox" "FireProx Prod"
        "FireProx Production Deployment" in
    remote _ (import_rest_api "REGIONAL" body) (provider s) = (Ok response, p1) ->
    ra_id response <> EmptyString ->
    remote _ deploy p1 = (r, p2) ->
    let before :=
      [Print ("Creating => " ++ u0 ++ "...");
       Called (import_rest_api "REGIONAL" body) (Ok response);
       Called deploy r] in
    create_api remote tld_domain version_date self (Some u0) s
    = match r with
      | Ok deployed =>
          (Ret tt,
           State p2 (region s)
             (log s ++ before
                ++ [Print ("[" ++ ra_createdDate response ++ "] ("
                             ++ ra_id response ++ ") " ++ ra_name response
                             ++ " => "
                             ++ invoke_url (Some (ra_id response)) (region s)
                             ++ " (" ++ u0 ++ ")")]))
      | Fails (ClientError msg) =>
          (Exit msg, State p2 (region s) (log s ++ before ++ [Print (help self)]))
      | Fails e => (Raise e, State p2 (region s) (log s ++ before))
      end.
Proof.
  intros St remote tld_domain version_date self u0 s response p1 r p2
         Hurl Hu body deploy Himp Hid Hdep before.
  assert (Ht : truthy (Some u0) = true) by (destruct u0; [congruence|reflexivity]).
  assert (Hi : truthy (Some (ra_id response)) = true)
    by (destruct (ra_id response); [congruence|reflexivity]).
  unfold create_api. rewrite Ht. cbn [negb].
  erewrite bind_ret by reflexivity.
  erewrite bind_ret by reflexivity.
  erewrite bind_ret by (apply get_template_run; [exact Hurl|exact Hu]).
  erewrite bind_ret by (apply guarded_ok; exact Himp).
  unfold bind.
  match goal with
  | |- context [create_deployment remote self _ ?s1] =>
      rewrite (create_deployment_run remote self (Some (ra_id response)) s1 r p2
                 Hi Hdep)
  end.
  subst before.
  destruct r as [deployed|[msg|msg| | |msg]];
    cbv beta iota delta [store_api print emit provider region log fst snd py_str];
    rewrite <- ?app_assoc; cbn [app]; reflexivity.
Qed.

Lemma create_api_imports_then_deploys_witness :
  create_api Demo.serve Demo.domain Demo.version_date
    (Demo.args None (Some "https://example.com/")) (Some "https://example.com/")
    Demo.start
  = (Ret tt,
     State
       (Demo.account
          ++ [Demo.Gateway
                (RestApi "new1" "fireprox_example" "2026-01-01" "2026-01-01T00:00:00Z")
                (Demo.Proxied
                   (render Demo.version_date "https://example.com"
                      "fireprox_example"))])%list
       (Some "us-east-1")
       ([]
          ++ [Print "Creating => https://example.com/...";
              Called
                (import_rest_api "REGIONAL"
                   (render Demo.version_date "https://example.com"
                      "fireprox_example"))
                (Ok (RestApi "new1" "fireprox_example" "2026-01-01"
                       "2026-01-01T00:00:00Z"));
              Called
                (create_deployment_ (Some "new1") "fireprox" "FireProx Prod"
                   "FireProx Production Deployment")
                (Ok (Deployment "dep1"))]
          ++ [Print "[2026-01-01] (new1) fireprox_example => https://new1.execute-api.us-east-1.amazonaws.com/fireprox/ (https://example.com/)"])%list).
Proof.
  apply (create_api_imports_then_deploys Demo.cloud Demo.serve Demo.domain
           Demo.version_date (Demo.args None (Some "https://example.com/"))
           "https://example.com/" Demo.start
           (RestApi "new1" "fireprox_example" "2026-01-01" "2026-01-01T00:00:00Z")
           (Demo.account
              ++ [Demo.Gateway
                    (RestApi "new1" "fireprox_example" "2026-01-01"
                       "2026-01-01T00:00:00Z")
                    (Demo.Proxied
                       (render Demo.version_date "https://example.com"
                          "fireprox_example"))])%list
           (Ok (Deployment "dep1"))
           (Demo.account
              ++ [Demo.Gateway
                    (RestApi "new1" "fireprox_example" "2026-01-01"
                       "2026-01-01T00:00:00Z")
                    (Demo.Proxied
                       (render Demo.version_date "https://example.com"
                          "fireprox_example"))])%list);
    first [reflexivity|discriminate].
Defined.

(** X7: [create_api] without a URL prints the help text and ends in
    [sys.exit] with the usage message; nothing is rendered or requested. *)
Theorem create_api_without_url :
  forall (St : Type) (remote : forall R : Type, call R -> St -> reply R * St)
         (tld_domain : string -> string) (version_date : string)
         (self : FireProx) (url : pystr) (s : state St),
    truthy url = false ->
    create_api remote tld_domain version_date self url s
    = (Exit "Please provide a valid URL end-point",
       State (provider s) (region s) (log s ++ [Print (help self)])).
Proof.
  intros St remote tld_domain version_date self url s Hu.
  unfold create_api. rewrite Hu. reflexivity.
Qed.

Lemma create_api_without_url_witness :
  create_api Demo.serve Demo.domain Demo.version_date (Demo.args None None)
    None Demo.start
  = (Exit "Please provide a valid URL end-point",
     State Demo.account (Some "us-east-1") [Print "usage: fire.py"]).
Proof.
  apply (create_api_without_url Demo.cloud Demo.serve Demo.domain
           Demo.version_date (Demo.args None None) None Demo.start).
  reflexivity.
Defined.

(** ** Loading the credentials *)

Section Credentials2.

Context {St : Type}.
Variable remote : forall R : Type, call R -> St -> reply R * St.
Variable self : FireProx.

Lemma try_instance_profile_run (s : state St) :
  let client :=
    boto3_client (if truthy (region s) then region s else None) in
  _try_instance_profile remote s
  = match remote _ client (provider s) with
    | (Ok cfg, p1) =>
        match remote _ get_account p1 with
        | (Ok answer, p2) =>
            (Ret true,
             State p2 cfg
               (log s ++ [Called client (Ok cfg); Called get_account (Ok answer)]))
        | (Fails e, p2) =>
            (Ret false,
             State p2 (region s)
               (log s ++ [Called client (Ok cfg); Called get_account (Fails e)]))
        end
    | (Fails e, p1) =>
        (Ret false, State p1 (region s) (log s ++ [Called client (Fails e)]))
    end.
Proof.
  intros client. subst client.
  unfold _try_instance_profile, try_bare, bind, get_region.
  destruct (truthy (region s)); cbn [negb]; unfold invoke at 1;
    cbn [provider region log];
    match goal with
    | |- context [remote _ ?c (provider s)] =>
        destruct (remote _ c (provider s)) as [[cfg|e] p]
    end; try reflexivity;
    unfold invoke; cbn [provider region log];
    destruct (remote _ get_account p) as [[[]|e] p1]; cbn;
    rewrite <- ?app_assoc; reflexivity.
Qed.

Lemma load_creds_ambient (s : state St) :
  truthy (profile_name self) = false ->
  truthy (access_key self) = false ->
  truthy (secret_access_key self) = false ->
  load_creds remote self s = _try_instance_profile remote s.
Proof. intros Hp Ha Hs. unfold load_creds. rewrite Hp, Ha, Hs. reflexivity. Qed.

End Credentials2.

(** X8: [_try_instance_profile] never raises and never exits.  It
    returns true exactly when the client is made and [get_account]
    answers, and only then is [self.region] replaced, by the region of
    the client; every failure, whatever the exception, gives false and
    leaves the region as it was. *)
Theorem try_instance_profile_outcomes :
  forall (St : Type) (remote : forall R : Type, call R -> St -> reply R * St)
         (s : state St),
    let client :=
      boto3_client (if truthy (region s) then region s else None) in
    _try_instance_profile remote s
    = match remote _ client (provider s) with
      | (Ok cfg, p1) =>
          match remote _ get_account p1 with
          | (Ok answer, p2) =>
              (Ret true,
               State p2 cfg
                 (log s ++ [Called client (Ok cfg); Called get_account (Ok answer)]))
          | (Fails e, p2) =>
              (Ret false,
               State p2 (region s)
                 (log s ++ [Called client (Ok cfg); Called get_account (Fails e)]))
          end
      | (Fails e, p1) =>
          (Ret false, State p1 (region s) (log s ++ [Called client (Fails e)]))
      end.
Proof. intros St remote s. exact (try_instance_profile_run remote s). Qed.

(** X9: with a profile or with both keys, [load_creds] makes the session
    from the keywords and the region, then its client.  It returns true
    when both answer, and [self.region] is then the region of the
    session; [ClientError] and [NoRegionError] end the run in [sys.exit]
    with their message after the help text; any other exception goes up
    uncaught.  It never returns false. *)
Theorem load_creds_session_outcomes :
  forall (St : Type) (remote : forall R : Type, call R -> St -> reply R * St)
         (self : FireProx) (details : gmap string pystr) (s : state St),
    truthy (access_key self) || truthy (secret_access_key self)
      || truthy (profile_name self) = true ->
    session_details self = Some details ->
    let make := boto3_Session (<[ "region_name" := region s ]> details) in
    let failed (e : exn) (p : St) (calls : list event)
        : outcome bool * state St :=
      match e with
      | ClientError msg | NoRegionError msg =>
          (Exit msg, State p (region s) (log s ++ calls ++ [Print (help self)]))
      | _ => (Raise e, State p (region s) (log s ++ calls))
      end in
    load_creds remote self s
    = match remote _ make (provider s) with
      | (Ok session_region, p1) =>
          match remote _ session_client p1 with
          | (Ok answer, p2) =>
              (Ret true,
               State p2 session_region
                 (log s ++ [Called make (Ok session_region);
                            Called session_client (Ok answer)]))
          | (Fails e, p2) =>
              failed e p2 [Called make (Ok session_region);
                           Called session_client (Fails e)]
          end
      | (Fails e, p1) => failed e p1 [Called make (Fails e)]
      end.
Proof.
  intros St remote self details s Hany Hd make failed. subst make failed.
  unfold load_creds. rewrite Hany, Hd. cbn [negb].
  unfold try_except, bind, get_region. unfold invoke at 1.
  cbn [provider region log].
  destruct (remote _ (boto3_Session _) (provider s)) as [[sr|e] p]; cbn.
  - unfold invoke. cbn [provider region log].
    destruct (remote _ session_client p) as [[[]|e] p1]; cbn.
    + rewrite <- app_assoc. reflexivity.
    + destruct e; cbn; rewrite <- ?app_assoc; reflexivity.
  - destruct e; cbn; rewrite <- ?app_assoc; reflexivity.
Qed.

Lemma load_creds_session_outcomes_witness :
  load_creds Demo.serve (Demo.keys (Some "FwoGZXIvYXdzE")) Demo.start
  = (Raise TypeError,
     State Demo.account (Some "us-east-1")
       ([] ++ [Called
                 (boto3_Session
                    (<[ "region_name" := Some "us-east-1" ]>
                       (<[ "aws_sessoin_token" := Some "FwoGZXIvYXdzE" ]>
                          (<[ "aws_secret_access_key" := Some "secret" ]>
                             {[ "aws_access_key_id" := Some "AKIAEXAMPLE" ]}))))
                 (Fails TypeError)])%list).
Proof.
  rewrite (load_creds_session_outcomes Demo.cloud Demo.serve
             (Demo.keys (Some "FwoGZXIvYXdzE"))
             (<[ "aws_sessoin_token" := Some "FwoGZXIvYXdzE" ]>
                (<[ "aws_secret_access_key" := Some "secret" ]>
                   {[ "aws_access_key_id" := Some "AKIAEXAMPLE" ]}))
             Demo.start eq_refl eq_refl).
  reflexivity.
Defined.

(** X10: with both keys and no region the constructor ends in the usage
    error before it looks at the credentials, whether a profile is given
    or not: only the help text is printed and nothing is called. *)
Theorem init_keys_need_region :
  forall (St : Type) (remote : forall R : Type, call R -> St -> reply R * St)
         (self : FireProx) (s : state St),
    truthy (access_key self) = true ->
    truthy (secret_access_key self) = true ->
    truthy (region s) = false ->
    __init__ remote self s
    = (Exit "Please provide a region with AWS credentials",
       State (provider s) (region s) (log s ++ [Print (help self)])).
Proof.
  intros St remote self s Ha Hs Hr.
  unfold __init__. rewrite Ha, Hs. cbn [andb].
  unfold bind at 1. unfold bind at 1. unfold get_region. rewrite Hr.
  reflexivity.
Qed.

Lemma init_keys_need_region_witness :
  __init__ Demo.serve (Demo.keys None) (State Demo.account (Some "") [])
  = (Exit "Please provide a region with AWS credentials",
     State Demo.account (Some "") [Print "usage: fire.py"]).
Proof.
  apply (init_keys_need_region Demo.cloud Demo.serve (Demo.keys None)
           (State Demo.account (Some "") [])); reflexivity.
Defined.

(** X11: without profile and keys the constructor tries the ambient
    credentials: it returns when the client is made and [get_account]
    answers, and otherwise, whatever was raised, it prints the help text
    and ends in [sys.exit] with its own message; the message of the
    exception is lost. *)
Theorem init_ambient_credentials :
  forall (St : Type) (remote : forall R : Type, call R -> St -> reply R * St)
         (self : FireProx) (s : state St),
    truthy (profile_name self) = false ->
    truthy (access_key self) = false ->
    truthy (secret_access_key self) = false ->
    let client :=
      boto3_client (if truthy (region s) then region s else None) in
    __init__ remote self s
    = match remote _ client (provider s) with
      | (Ok cfg, p1) =>
          match remote _ get_account p1 with
          | (Ok answer, p2) =>
              (Ret tt,
               State p2 cfg
                 (log s ++ [Called client (Ok cfg); Called get_account (Ok answer)]))
          | (Fails e, p2) =>
              (Exit "Unable to load AWS credentials",
               State p2 (region s)
                 (log s ++ [Called client (Ok cfg); Called get_account (Fails e);
                            Print (help self)]))
          end
      | (Fails e, p1) =>
          (Exit "Unable to load AWS credentials",
           State p1 (region s)
             (log s ++ [Called client (Fails e); Print (help self)]))
      end.
Proof.
  intros St remote self s Hp Ha Hs client.
  unfold __init__. rewrite Ha. cbn [andb].
  erewrite bind_ret by reflexivity.
  unfold bind. rewrite (load_creds_ambient remote self s Hp Ha Hs).
  rewrite (try_instance_profile_run remote s). fold client.
  destruct (remote _ client (provider s)) as [[cfg|e] p1].
  - destruct (remote _ get_account p1) as [[[]|e] p2]; cbn;
      rewrite <- ?app_assoc; reflexivity.
  - cbn. rewrite <- app_assoc. reflexivity.
Qed.

Lemma init_ambient_credentials_witness :
  __init__ Demo.serve (Demo.args None None) Demo.start
  = (Ret tt,
     State Demo.account (Some "us-east-1")
       ([] ++ [Called (boto3_client (Some "us-east-1")) (Ok (Some "us-east-1"));
               Called get_account (Ok tt)])%list).
Proof.
  apply (init_ambient_credentials Demo.cloud Demo.serve (Demo.args None None)
           Demo.start); reflexivity.
Defined.

(** ** What the operations never request *)

Section Footprint.

Context {St : Type}.
Variable remote : forall R : Type, call R -> St -> reply R * St.
Variable self : FireProx.

Lemma appends_update_api (api_id url : pystr) :
  appends (updates_only api_id) (update_api remote self api_id url).
Proof.
  unfold update_api.
  apply appends_bind; [apply appends_check; intros; exact I|]. intros _.
  apply appends_bind; [apply appends_strip_slash|]. intros u.
  apply appends_bind.
  { apply appends_get_resource; [intros; exact I|intros; reflexivity]. }
  intros rid.
  destruct (truthy rid); [|apply appends_error; exact I].
  apply appends_bind; [apply appends_print; exact I|]. intros _.
  apply appends_bind; [|intros; apply appends_ret].
  apply appends_guarded; [intros; reflexivity|exact I].
Qed.

Lemma read_only_deletes_nothing (api_id : pystr) (evs : list event) :
  Forall (only read_call) evs ->
  Forall (deletes_only api_id) evs
  /\ List.filter is_delete_request evs = [].
Proof.
  induction 1 as [|e evs He _ [IH1 IH2]]; [split; [constructor|reflexivity]|].
  assert (H : deletes_only api_id e /\ is_delete_request e = false).
  { destruct e as [line|R c r]; [split; [exact I|reflexivity]|].
    destruct c; cbn in He; try discriminate; split; reflexivity. }
  destruct H as [H1 H2]. split; [constructor; assumption|].
  cbn. rewrite H2. exact IH2.
Qed.

Lemma delete_matching_footprint (api_id : pystr) (items : list rest_api)
    (s : state St) :
  exists evs,
    log (snd (delete_matching remote self api_id items s)) = (log s ++ evs)%list
    /\ Forall (deletes_only api_id) evs
    /\ (length (List.filter is_delete_request evs) <= 1)%nat.
Proof.
  induction items as [|item items IH]; cbn [delete_matching].
  - exists []. cbn. rewrite app_nil_r. repeat split; auto.
  - destruct (bool_decide _); [|exact IH].
    unfold bind, try_except, invoke.
    destruct (remote _ (delete_rest_api api_id) (provider s)) as [[[]|e] p].
    + eexists [_]. cbn. repeat split; auto. repeat constructor.
    + destruct e; cbn; rewrite <- ?app_assoc;
        first [eexists [_; _]; cbn; repeat split; auto; repeat constructor; fail
              |eexists [_]; cbn; repeat split; auto; repeat constructor].
Qed.

End Footprint.

(** X12: whatever the provider answers, [list_api] only reads the
    account: every request it makes is a listing of the gateways, a
    listing of the resources of a gateway or a read of an integration. *)
Theorem list_api_read_only :
  forall (St : Type) (remote : forall R : Type, call R -> St -> reply R * St)
         (self : FireProx) (deleted_api_id : pystr) (s : state St),
    exists evs,
      log (snd (list_api remote self deleted_api_id s)) = (log s ++ evs)%list
      /\ Forall (only read_call) evs.
Proof.
  intros St remote self d s.
  apply (appends_list_api remote (only read_call)); intros; first [exact I|reflexivity].
Qed.

(** X13: whatever the provider answers, [update_api] touches no other
    gateway and changes nothing else: its requests are the listing of
    the resources of the gateway it is given and the patch of the
    integration of that gateway. *)
Theorem update_api_touches_only_its_gateway :
  forall (St : Type) (remote : forall R : Type, call R -> St -> reply R * St)
         (self : FireProx) (api_id url : pystr) (s : state St),
    exists evs,
      log (snd (update_api remote self api_id url s)) = (log s ++ evs)%list
      /\ Forall (updates_only api_id) evs.
Proof.
  intros St remote self api_id url s.
  exact (appends_update_api remote self api_id url s).
Qed.

(** X14: whatever the provider answers, [delete_api] requests the
    deletion of no gateway but the one it is given, and of that one at
    most once, also when the listing holds the ID several times; its
    other requests only read the account. *)
Theorem delete_api_deletes_only_its_gateway :
  forall (St : Type) (remote : forall R : Type, call R -> St -> reply R * St)
         (self : FireProx) (api_id : pystr) (s : state St),
    exists evs,
      log (snd (delete_api remote self api_id s)) = (log s ++ evs)%list
      /\ Forall (deletes_only api_id) evs
      /\ (length (List.filter is_delete_request evs) <= 1)%nat.
Proof.
  intros St remote self api_id s. unfold delete_api.
  destruct (truthy api_id); cbn [negb].
  - erewrite bind_ret by reflexivity.
    destruct (appends_list_api remote (only read_call) (fun _ => I) self api_id
                (fun _ => eq_refl) (fun _ _ => eq_refl) (fun _ _ _ => eq_refl) s)
      as (evs1 & Hl1 & H1).
    destruct (read_only_deletes_nothing api_id evs1 H1) as [D1 F1].
    unfold bind.
    destruct (list_api remote self api_id s) as [[items|status|e] s1];
      cbn [snd] in Hl1.
    + destruct (delete_matching_footprint remote self api_id items s1)
        as (evs2 & Hl2 & D2 & F2).
      exists (evs1 ++ evs2)%list. rewrite Hl2, Hl1, app_assoc.
      split; [reflexivity|]. split; [apply Forall_app; auto|].
      rewrite List.filter_app, F1. exact F2.
    + exists evs1. cbn [snd]. rewrite F1. cbn. auto.
    + exists evs1. cbn [snd]. rewrite F1. cbn. auto.
  - exists [Print (help self)]. cbn. repeat split; auto. repeat constructor.
Qed.

(** ** The URI that comes back *)

Section Echo.

Import PyStr.

Lemma startswith_before_pattern (c : ascii) (r x : string) :
  has_char c r = false -> x <> EmptyString ->
  startswith (String c r) (x ++ String c r) = startswith (String c r) x.
Proof.
  intros Hc Hx. destruct x as [|a x]; [congruence|].
  rewrite append_cons. cbn [startswith].
  destruct (Ascii.eqb c a); [|reflexivity].
  apply (startswith_boundary c r Hc).
Qed.

(** A pattern whose first character does not come again in it, put after
    a text that does not contain it, is found there and nowhere else. *)
Lemma replace_go_before_pattern (c : ascii) (r new u : string) :
  has_char c r = false ->
  occurrences (String c r) u = 0 ->
  replace_go (String c r) new 0 (u ++ String c r) = u ++ new.
Proof.
  intros Hc. induction u as [|a u IH]; intros Hu.
  - rewrite !append_nil. apply replace_go_self.
  - cbn [occurrences] in Hu.
    destruct (startswith (String c r) (String a u)) eqn:Hs; [cbn in Hu; lia|].
    cbn in Hu. rewrite !append_cons.
    cbn [replace_go].
    change (String a (u ++ String c r)) with (String a u ++ String c r).
    rewrite (startswith_before_pattern c r (String a u) Hc) by discriminate.
    rewrite Hs, (IH Hu). reflexivity.
Qed.

End Echo.

(** X15: when the provider answers the patch with the URI that it was
    sent, [update_api] returns true, for any URL whose stripped form does
    not contain the wildcard suffix. *)
Theorem update_api_true_on_echo :
  forall (St : Type) (remote : forall R : Type, call R -> St -> reply R * St)
         (self : FireProx) (api_id : pystr) (u0 : string) (s : state St)
         (items : list resource) (p p' : St),
    truthy api_id = true ->
    u0 <> EmptyString ->
    PyStr.occurrences "/{proxy}" (chop_slash u0) = 0 ->
    remote _ (get_resources api_id) (provider s) = (Ok items, p) ->
    truthy (find_proxy_resource items) = true ->
    remote _ (update_integration api_id (find_proxy_resource items) "ANY"
                "replace" "/uri" (chop_slash u0 ++ "/" ++ "{proxy}")) p
    = (Ok (Integration (chop_slash u0 ++ "/" ++ "{proxy}")), p') ->
    fst (update_api remote self api_id (Some u0) s) = Ret true.
Proof.
  intros St remote self api_id u0 s items p p' Hid Hu Hocc Hres Hrid Hupd.
  rewrite (update_api_run remote self api_id u0 s items p _ p' Hid Hu Hres Hrid Hupd).
  cbn [fst ig_uri]. f_equal. apply String.eqb_eq.
  unfold PyStr.replace.
  change (chop_slash u0 ++ "/" ++ "{proxy}") with (chop_slash u0 ++ "/{proxy}").
  rewrite (replace_go_before_pattern "/" "{proxy}" "" (chop_slash u0) eq_refl Hocc).
  apply append_empty.
Qed.

Lemma update_api_true_on_echo_witness :
  fst (update_api Demo.serve (Demo.args None None) (Some "abc123")
         (Some "https://example.com/api/") Demo.start) = Ret true.
Proof.
  apply (update_api_true_on_echo Demo.cloud Demo.serve (Demo.args None None)
           (Some "abc123") "https://example.com/api/" Demo.start
           [Resource "r0" "/"; Resource "r1" "/{proxy+}"] Demo.account
           (Demo.rewire (Some "abc123") "https://example.com/api/{proxy}"
              Demo.account));
    first [reflexivity|discriminate].
Defined.

(** X16: for a gateway whose integration URI is a backend URL followed
    by the wildcard suffix, as [get_template] and [update_api] write it,
    the line that [list_api] prints shows the backend URL followed by a
    slash; the backend URL is one that does not contain the text
    ['{proxy}'] itself. *)
Theorem list_item_shows_backend_with_slash :
  forall (St : Type) (remote : forall R : Type, call R -> St -> reply R * St)
         (self : FireProx) (item : rest_api) (backend : string)
         (s s1 : state St),
    PyStr.occurrences "{proxy}" (backend ++ "/") = 0 ->
    get_integration remote self (Some (ra_id item)) s
    = (Ret (backend ++ "/{proxy}"), s1) ->
    list_item remote self None item s
    = (Ret tt,
       State (provider s1) (region s1)
         (log s1
            ++ [Print ("[" ++ ra_createdDate item ++ "] (" ++ ra_id item ++ ") "
                         ++ ra_name item ++ ": "
                         ++ invoke_url (Some (ra_id item)) (region s1)
                         ++ " => " ++ backend ++ "/")])).
Proof.
  intros St remote self item backend s s1 Hocc Hget.
  unfold list_item, try_bare, bind. rewrite Hget. unfold get_region.
  cbn [bool_decide decide_rel negb]. unfold print, emit, list_line.
  cbn [provider region log].
  assert (E : PyStr.replace "{proxy}" "" (backend ++ "/{proxy}") = backend ++ "/").
  { unfold PyStr.replace.
    change (backend ++ "/{proxy}") with (backend ++ "/" ++ "{proxy}").
    rewrite <- append_assoc.
    rewrite (replace_go_before_pattern "{" "proxy}" "" (backend ++ "/") eq_refl Hocc).
    apply append_empty. }
  rewrite E. reflexivity.
Qed.

Lemma list_item_shows_backend_with_slash_witness :
  list_item Demo.serve (Demo.args None None) None Demo.abc Demo.start
  = (Ret tt,
     State Demo.account (Some "us-east-1")
       ([Called (get_resources (Some "abc123"))
           (Ok [Resource "r0" "/"; Resource "r1" "/{proxy+}"]);
         Called (get_integration_ (Some "abc123") (Some "r1") "ANY")
           (Ok (Integration "https://old.example.org/{proxy}"))]
          ++ [Print "[2026-01-01] (abc123) fireprox_example: https://abc123.execute-api.us-east-1.amazonaws.com/fireprox/ => https://old.example.org/"])%list).
Proof.
  apply (list_item_shows_backend_with_slash Demo.cloud Demo.serve
           (Demo.args None None) Demo.abc "https://old.example.org" Demo.start
           (State Demo.account (Some "us-east-1")
              [Called (get_resources (Some "abc123"))
                 (Ok [Resource "r0" "/"; Resource "r1" "/{proxy+}"]);
               Called (get_integration_ (Some "abc123") (Some "r1") "ANY")
                 (Ok (Integration "https://old.example.org/{proxy}"))]));
    reflexivity.
Defined.

(** ** The command line *)

(** X17: [main] loads the credentials before it looks at the command.
    With a command that is none of the four, once the credentials are
    loaded it prints the error line and the help text and ends in
    [sys.exit(1)] without a request to the gateway service; when the
    credentials fail, the run ends as the constructor ends it. *)
Theorem main_unsupported_command :
  forall (St : Type) (remote : forall R : Type, call R -> St -> reply R * St)
         (tld_domain : string -> string) (version_date : string)
         (args : FireProx) (region0 : pystr) (s : state St),
    command args <> "list" ->
    command args <> "create" ->
    command args <> "delete" ->
    command args <> "update" ->
    main remote tld_domain version_date args region0 s
    = match __init__ remote args (State (provider s) region0 (log s)) with
      | (Ret _, s1) =>
          (Exit "1",
           State (provider s1) (region s1)
             (log s1
                ++ [Print ("[ERROR] Unsupported command: " ++ command args
                             ++ newline);
                    Print (help args)]))
      | (Exit status, s1) => (Exit status, s1)
      | (Raise e, s1) => (Raise e, s1)
      end.
Proof.
  intros St remote tld_domain version_date args region0 s Hl Hc Hd Hu.
  apply String.eqb_neq in Hl, Hc, Hd, Hu.
  unfold main. rewrite Hl, Hc, Hd, Hu.
  erewrite bind_ret by reflexivity.
  unfold bind at 1.
  destruct (__init__ remote args (State (provider s) region0 (log s)))
    as [[[]|status|e] s1]; try reflexivity.
  cbn. rewrite <- app_assoc. reflexivity.
Qed.

Lemma main_unsupported_command_witness :
  main Demo.serve Demo.domain Demo.version_date
    {| profile_name := None; access_key := None; secret_access_key := None;
       session_token := None; command := "destroy"; api_id := None;
       url := None; help := "usage: fire.py" |}
    (Some "us-east-1") (State Demo.account None [])
  = (Exit "1",
     State Demo.account (Some "us-east-1")
       [Called (boto3_client (Some "us-east-1")) (Ok (Some "us-east-1"));
        Called get_account (Ok tt);
        Print ("[ERROR] Unsupported command: destroy" ++ newline);
        Print "usage: fire.py"]).
Proof.
  rewrite (main_unsupported_command Demo.cloud Demo.serve Demo.domain
             Demo.version_date _ (Some "us-east-1") (State Demo.account None []));
    first [reflexivity|discriminate].
Defined.

(** X18: what [main] reports for delete and update.  Once the
    credentials are loaded and [delete_api] returns, the last line is
    [Deleting <id> => Success!] for true and [... Failed!] for false;
    for update the line [Updating <id> => <url>...] is printed before
    [update_api] runs and [API Update Complete: Success!] or [Failed!]
    after it returns; in both cases [main] then returns. *)
Theorem main_reports_result :
  forall (St : Type) (remote : forall R : Type, call R -> St -> reply R * St)
         (tld_domain : string -> string) (version_date : string)
         (args : FireProx) (region0 : pystr) (s s1 s2 : state St)
         (result : bool),
    __init__ remote args (State (provider s) region0 (log s)) = (Ret tt, s1) ->
    (command args = "delete" ->
     delete_api remote args (api_id args) s1 = (Ret result, s2) ->
     main remote tld_domain version_date args region0 s
     = (Ret tt,
        State (provider s2) (region s2)
          (log s2
             ++ [Print ("Deleting " ++ py_str (api_id args) ++ " => "
                          ++ (if result then "Success!" else "Failed!"))])))
    /\ (command args = "update" ->
        update_api remote args (api_id args) (url args)
          (State (provider s1) (region s1)
             (log s1
                ++ [Print ("Updating " ++ py_str (api_id args) ++ " => "
                             ++ py_str (url args) ++ "...")]))
        = (Ret result, s2) ->
        main remote tld_domain version_date args region0 s
        = (Ret tt,
           State (provider s2) (region s2)
             (log s2
                ++ [Print ("API Update Complete: "
                             ++ (if result then "Success!" else "Failed!"))]))).
Proof.
  intros St remote tld_domain version_date args region0 s s1 s2 result Hinit.
  split; intros Hcmd Hrun; unfold main; rewrite Hcmd;
    cbn [String.eqb Ascii.eqb Bool.eqb];
    erewrite bind_ret by reflexivity;
    erewrite bind_ret by exact Hinit.
  - erewrite bind_ret by exact Hrun. reflexivity.
  - erewrite bind_ret by reflexivity.
    erewrite bind_ret by exact Hrun. reflexivity.
Qed.

Lemma main_reports_result_witness :
  main Demo.serve Demo.domain Demo.version_date
    {| profile_name := None; access_key := None; secret_access_key := None;
       session_token := None; command := "delete"; api_id := Some "nope00";
       url := None; help := "usage: fire.py" |}
    (Some "us-east-1") (State Demo.account None [])
  = (Ret tt,
     State Demo.account (Some "us-east-1")
       (log (snd (delete_api Demo.serve
                    {| profile_name := None; access_key := None;
                       secret_access_key := None; session_token := None;
                       command := "delete"; api_id := Some "nope00";
                       url := None; help := "usage: fire.py" |}
                    (Some "nope00")
                    (State Demo.account (Some "us-east-1")
                       [Called (boto3_client (Some "us-east-1"))
                          (Ok (Some "us-east-1"));
                        Called get_account (Ok tt)])))
          ++ [Print "Deleting nope00 => Failed!"])).
Proof.
  pose (args := {| profile_name := None; access_key := None;
                   secret_access_key := None; session_token := None;
                   command := "delete"; api_id := Some "nope00";
                   url := None; help := "usage: fire.py" |}).
  pose (s1 := State Demo.account (Some "us-east-1")
                [Called (boto3_client (Some "us-east-1")) (Ok (Some "us-east-1"));
                 Called get_account (Ok tt)]).
  destruct (main_reports_result Demo.cloud Demo.serve Demo.domain
              Demo.version_date args (Some "us-east-1")
              (State Demo.account None []) s1
              (snd (delete_api Demo.serve args (Some "nope00") s1)) false
              eq_refl) as [H _].
  exact (H eq_refl eq_refl).
Defined.

(** ** The region *)

Section Region.

Context {St : Type}.
Variable remote : forall R : Type, call R -> St -> reply R * St.
Variable self : FireProx.

Lemma keeps_ret {A : Type} (a : A) : keeps_region (ret (St := St) a).
Proof. intros s. reflexivity. Qed.

Lemma keeps_raise {A : Type} (e : exn) :
  keeps_region (raise (St := St) (A := A) e).
Proof. intros s. reflexivity. Qed.

Lemma keeps_print (line : string) : keeps_region (print (St := St) line).
Proof. intros s. reflexivity. Qed.

Lemma keeps_get_region : keeps_region (get_region (St := St)).
Proof. intros s. reflexivity. Qed.

Lemma keeps_error {A : Type} (status : string) :
  keeps_region (error (St := St) (A := A) self status).
Proof. intros s. reflexivity. Qed.

Lemma keeps_invoke {R : Type} (c : call R) : keeps_region (invoke remote c).
Proof.
  intros s. unfold invoke.
  destruct (remote R c (provider s)) as [[v|e] p]; reflexivity.
Qed.

Lemma keeps_bind {A B : Type} (m : M St A) (k : A -> M St B) :
  keeps_region m -> (forall a, keeps_region (k a)) -> keeps_region (bind m k).
Proof.
  intros Hm Hk s. specialize (Hm s). unfold bind.
  destruct (m s) as [[a|status|e] s1]; cbn [snd] in *; [|exact Hm..].
  rewrite (Hk a s1). exact Hm.
Qed.

Lemma keeps_try_except {A : Type} (m : M St A) (h : exn -> option (M St A)) :
  keeps_region m -> (forall e k, h e = Some k -> keeps_region k) ->
  keeps_region (try_except m h).
Proof.
  intros Hm Hh s. specialize (Hm s). unfold try_except.
  destruct (m s) as [[a|status|e] s1]; cbn [snd] in *; [exact Hm..|].
  destruct (h e) as [k|] eqn:He; [|exact Hm].
  rewrite (Hh e k He s1). exact Hm.
Qed.

Lemma keeps_try_bare {A : Type} (m h : M St A) :
  keeps_region m -> keeps_region h -> keeps_region (try_bare m h).
Proof.
  intros Hm Hh s. specialize (Hm s). unfold try_bare.
  destruct (m s) as [[a|status|e] s1]; cbn [snd] in *;
    [exact Hm|rewrite (Hh s1); exact Hm..].
Qed.

Lemma keeps_for_each {A : Type} (items : list A) (body : A -> M St unit) :
  (forall x, keeps_region (body x)) -> keeps_region (for_each items body).
Proof.
  intros H. induction items as [|x items IH]; cbn [for_each].
  - apply keeps_ret.
  - apply keeps_bind; auto.
Qed.

Lemma keeps_guarded {R : Type} (c : call R) :
  keeps_region (try_except (invoke remote c) (except_ClientError self)).
Proof.
  apply keeps_try_except; [apply keeps_invoke|].
  intros [msg| | | |] k Hk; cbn in Hk; try discriminate.
  injection Hk as <-. apply keeps_error.
Qed.

Lemma keeps_check (b : bool) (status : string) :
  keeps_region (if b then error (St := St) self status else ret tt).
Proof. destruct b; [apply keeps_error|apply keeps_ret]. Qed.

Lemma keeps_strip_slash (url : pystr) : keeps_region (strip_slash (St := St) url).
Proof.
  unfold strip_slash. destruct url as [u|]; [|apply keeps_raise].
  destruct (PyStr.last_char u); [apply keeps_ret|apply keeps_raise].
Qed.

Lemma keeps_get_resource (api_id : pystr) :
  keeps_region (get_resource remote self api_id).
Proof.
  unfold get_resource.
  apply keeps_bind; [apply keeps_check|]. intros _.
  apply keeps_bind; [apply keeps_guarded|]. intros items. apply keeps_ret.
Qed.

Lemma keeps_get_integration (api_id : pystr) :
  keeps_region (get_integration remote self api_id).
Proof.
  unfold get_integration.
  apply keeps_bind; [apply keeps_check|]. intros _.
  apply keeps_bind; [apply keeps_get_resource|]. intros rid.
  apply keeps_bind; [apply keeps_guarded|]. intros response. apply keeps_ret.
Qed.

Lemma keeps_list_api (d : pystr) : keeps_region (list_api remote self d).
Proof.
  unfold list_api.
  apply keeps_bind; [apply keeps_guarded|]. intros items.
  apply keeps_bind; [|intros _; apply keeps_ret].
  apply keeps_for_each. intros item. unfold list_item.
  apply keeps_try_bare; [|apply keeps_ret].
  apply keeps_bind; [apply keeps_get_integration|]. intros uri.
  apply keeps_bind; [apply keeps_get_region|]. intros r.
  destruct (negb _); [apply keeps_print|apply keeps_ret].
Qed.

Lemma keeps_update_api (api_id url : pystr) :
  keeps_region (update_api remote self api_id url).
Proof.
  unfold update_api.
  apply keeps_bind; [apply keeps_check|]. intros _.
  apply keeps_bind; [apply keeps_strip_slash|]. intros u.
  apply keeps_bind; [apply keeps_get_resource|]. intros rid.
  destruct (truthy rid); [|apply keeps_error].
  apply keeps_bind; [apply keeps_print|]. intros _.
  apply keeps_bind; [apply keeps_guarded|]. intros response. apply keeps_ret.
Qed.

Lemma keeps_delete_api (api_id : pystr) :
  keeps_region (delete_api remote self api_id).
Proof.
  unfold delete_api.
  apply keeps_bind; [apply keeps_check|]. intros _.
  apply keeps_bind; [apply keeps_list_api|]. intros items.
  induction items as [|item items IH]; cbn [delete_matching].
  - apply keeps_ret.
  - destruct (bool_decide _); [|exact IH].
    apply keeps_bind; [apply keeps_guarded|]. intros _. apply keeps_ret.
Qed.

Lemma keeps_create_api (tld_domain : string -> string) (version_date : string)
    (url : pystr) :
  keeps_region (create_api remote tld_domain version_date self url).
Proof.
  unfold create_api, get_template, store_api, create_deployment.
  apply keeps_bind; [apply keeps_check|]. intros _.
  apply keeps_bind; [apply keeps_print|]. intros _.
  apply keeps_bind.
  { apply keeps_bind; [apply keeps_strip_slash|]. intros u. apply keeps_ret. }
  intros template.
  apply keeps_bind; [apply keeps_guarded|]. intros response.
  apply keeps_bind; [|intros created; apply keeps_print].
  apply keeps_bind; [apply keeps_check|]. intros _.
  apply keeps_bind; [apply keeps_guarded|]. intros deployed.
  apply keeps_bind; [apply keeps_get_region|]. intros r. apply keeps_ret.
Qed.

End Region.

(** X19: the four operations leave [self.region] as the constructor set
    it, whatever the provider answers and however they end: only the
    loading of the credentials assigns it. *)
Theorem operations_keep_region :
  forall (St : Type) (remote : forall R : Type, call R -> St -> reply R * St)
         (tld_domain : string -> string) (version_date : string)
         (self : FireProx) (api_id url : pystr) (s : state St),
    region (snd (list_api remote self api_id s)) = region s
    /\ region (snd (create_api remote tld_domain version_date self url s))
       = region s
    /\ region (snd (update_api remote self api_id url s)) = region s
    /\ region (snd (delete_api remote self api_id s)) = region s.
Proof.
  intros St remote tld_domain version_date self api_id url s.
  split; [apply keeps_list_api|].
  split; [apply keeps_create_api|].
  split; [apply keeps_update_api|apply keeps_delete_api].
Qed.

(** ** The comparison of update and the count of the URL *)

(** C1, as amended: when the wildcard resource is found and the patch
    call answers with a backend URI that is [base] followed by the
    wildcard suffix, or [base] alone, where [base] does not contain the
    text of the suffix, [update_api] returns true if and only if [base],
    the URI without its wildcard suffix, is the requested URL with its
    one trailing slash, if it has one, removed.  The code removes every
    occurrence of the suffix text, which is why [base] must not contain
    it. *)
Theorem update_api_true_iff_stripped_url :
  forall (St : Type) (remote : forall R : Type, call R -> St -> reply R * St)
         (self : FireProx) (api_id : pystr) (u0 : string) (s : state St)
         (items : list resource) (p : St) (response : integration) (p' : St)
         (base : string),
    truthy api_id = true ->
    u0 <> EmptyString ->
    remote _ (get_resources api_id) (provider s) = (Ok items, p) ->
    truthy (find_proxy_resource items) = true ->
    remote _ (update_integration api_id (find_proxy_resource items) "ANY"
                "replace" "/uri" (chop_slash u0 ++ "/" ++ "{proxy}")) p
    = (Ok response, p') ->
    ig_uri response = base ++ "/{proxy}" \/ ig_uri response = base ->
    PyStr.occurrences "/{proxy}" base = 0 ->
    exists b,
      fst (update_api remote self api_id (Some u0) s) = Ret b
      /\ (b = true <-> base = chop_slash u0).
Proof.
  intros St remote self api_id u0 s items p response p' base
         Hid Hu Hres Hrid Hupd Huri Hocc.
  rewrite (update_api_run remote self api_id u0 s items p _ p' Hid Hu Hres Hrid Hupd).
  eexists. split; [reflexivity|].
  assert (E : PyStr.replace "/{proxy}" "" (ig_uri response) = base).
  { unfold PyStr.replace. destruct Huri as [-> | ->].
    - rewrite (replace_go_before_pattern "/" "{proxy}" "" base eq_refl Hocc).
      apply append_empty.
    - apply replace_go_absent. exact Hocc. }
  rewrite E. apply String.eqb_eq.
Qed.

Lemma update_api_true_iff_stripped_url_witness :
  exists b,
    fst (update_api Demo.serve (Demo.args (Some "abc123") (Some "https://example.com/"))
           (Some "abc123") (Some "https://example.com/") Demo.start) = Ret b
    /\ (b = true <-> "https://example.com" = chop_slash "https://example.com/").
Proof.
  apply (update_api_true_iff_stripped_url Demo.cloud Demo.serve
           (Demo.args (Some "abc123") (Some "https://example.com/"))
           (Some "abc123") "https://example.com/" Demo.start
           [Resource "r0" "/"; Resource "r1" "/{proxy+}"] Demo.account
           (Integration "https://example.com/{proxy}")
           (Demo.rewire (Some "abc123") "https://example.com/{proxy}" Demo.account)
           "https://example.com");
    first [reflexivity|discriminate|left; reflexivity].
Defined.

(** Why the base must not contain the text of the suffix: on a URL that
    ends in that text the provider answers with the URI it was sent,
    which without its suffix is the requested URL, and [update_api]
    returns false. *)
Example update_api_false_on_suffix_text :
  fst (update_api Demo.serve (Demo.args None None) (Some "abc123")
         (Some "https://example.com/{proxy}") Demo.start) = Ret false.
Proof. reflexivity. Qed.

Section Counting.

Import PyStr.

Lemma occurrences_split (p : string) (d : ascii) (a b : string) :
  p <> EmptyString -> has_char d p = false ->
  occurrences p (a ++ String d b) = occurrences p a + occurrences p b.
Proof.
  intros Hp Hd. induction a as [|c a IH].
  - rewrite append_nil. cbn [occurrences].
    destruct p as [|o p]; [congruence|].
    cbn [has_char] in Hd. apply orb_false_iff in Hd as [Hod _].
    cbn [startswith]. rewrite Hod. reflexivity.
  - rewrite append_cons. cbn [occurrences].
    change (String c (a ++ String d b)) with (String c a ++ String d b).
    rewrite (startswith_boundary d p Hd), IH. lia.
Qed.

(** In texts joined by characters that [p] does not contain, [p] occurs
    as often as in the texts taken one by one. *)
Lemma occurrences_join (p : string) (l : list (string * ascii)) (last : string) :
  p <> EmptyString ->
  Forall (fun xd => has_char (snd xd) p = false) l ->
  occurrences p (Cut.join l last)
  = list_sum (map (fun xd => occurrences p (fst xd)) l) + occurrences p last.
Proof.
  intros Hp. induction 1 as [|[x d] l Hd _ IH]; [reflexivity|].
  cbn [Cut.join map list_sum fold_right fst snd] in *.
  rewrite (occurrences_split p d x _ Hp Hd), IH.
  unfold list_sum. lia.
Qed.

(** The two slots of the URL with what follows them up to the next
    double quote. *)
Lemma slots_rejoin (q : ascii) (sv v st t sr u sw sl : string) :
  Cut.join
    [(sv, q); (v, q); (st, q); (t, q); (sr, q); (u, "/"%char);
     (String q sw, q); (u, "/"%char)]
    ("{proxy}" ++ String q sl)
  = Cut.join
      [(sv, q); (v, q); (st, q); (t, q); (sr, q); (u ++ "/", q); (sw, q);
       (u ++ "/{proxy}", q)]
      sl.
Proof.
  cbn [Cut.join fst snd]. rewrite !append_assoc. reflexivity.
Qed.

(** The count of a text in the document, from its count in the template
    and in what is put into it. *)
Lemma count_in_layout (sv st sr sw sl v t u : string) :
  let q := ascii_of_nat 34 in
  u <> EmptyString ->
  has_char q u = false ->
  occurrences u
    (Cut.join
       [(sv, q); ("{{version_date}}", q); (st, q); ("{{title}}", q); (sr, q);
        ("{{url}}", "/"%char); (String q sw, q); ("{{url}}", "/"%char)]
       ("{proxy}" ++ String q sl)) = 0 ->
  occurrences u v = 0 ->
  occurrences u t = 0 ->
  occurrences u (u ++ "/") = 1 ->
  occurrences u (u ++ "/{proxy}") = 1 ->
  occurrences u
    (Cut.join
       [(sv, q); (v, q); (st, q); (t, q); (sr, q); (u, "/"%char);
        (String q sw, q); (u, "/"%char)]
       ("{proxy}" ++ String q sl)) = 2.
Proof.
  intros q Hu Hq Htpl Hv Ht H1 H2.
  rewrite slots_rejoin in Htpl. rewrite slots_rejoin.
  rewrite (occurrences_join u _ _ Hu) in Htpl by (repeat constructor; exact Hq).
  rewrite (occurrences_join u _ _ Hu) by (repeat constructor; exact Hq).
  cbn [map list_sum fold_right fst snd] in *.
  rewrite Hv, Ht, H1, H2. lia.
Qed.

Lemma template_layout_quotes :
  template
  = Cut.join
      [(drop_last seg_version, ascii_of_nat 34);
       ("{{version_date}}", ascii_of_nat 34);
       (drop_last (Cut.drop 1 seg_title), ascii_of_nat 34);
       ("{{title}}", ascii_of_nat 34);
       (drop_last (Cut.drop 1 seg_root), ascii_of_nat 34);
       ("{{url}}", "/"%char);
       (String (ascii_of_nat 34) (drop_last (Cut.drop 2 seg_wildcard)),
        ascii_of_nat 34);
       ("{{url}}", "/"%char)]
      ("{proxy}" ++ String (ascii_of_nat 34) (Cut.drop 9 seg_tail)).
Proof. vm_compute. reflexivity. Qed.

Lemma layout_segments_quotes (v t u : string) :
  Cut.join
    [(drop_last seg_version, ascii_of_nat 34);
     (v, ascii_of_nat 34);
     (drop_last (Cut.drop 1 seg_title), ascii_of_nat 34);
     (t, ascii_of_nat 34);
     (drop_last (Cut.drop 1 seg_root), ascii_of_nat 34);
     (u, "/"%char);
     (String (ascii_of_nat 34) (drop_last (Cut.drop 2 seg_wildcard)),
      ascii_of_nat 34);
     (u, "/"%char)]
    ("{proxy}" ++ String (ascii_of_nat 34) (Cut.drop 9 seg_tail))
  = seg_version ++ v ++ seg_title ++ t
      ++ seg_root ++ u ++ seg_wildcard ++ u ++ seg_tail.
Proof. vm_compute. reflexivity. Qed.

(** The count of the URL in the document. *)
Lemma document_holds_url_twice (v t u : string) :
  u <> EmptyString ->
  has_char (ascii_of_nat 34) u = false ->
  occurrences u template = 0 ->
  occurrences u v = 0 ->
  occurrences u t = 0 ->
  occurrences u (u ++ "/") = 1 ->
  occurrences u (u ++ "/{proxy}") = 1 ->
  occurrences u
    (seg_version ++ v ++ seg_title ++ t
       ++ seg_root ++ u ++ seg_wildcard ++ u ++ seg_tail) = 2.
Proof.
  intros Hu Hq Htpl Hv Ht H1 H2.
  exact (eq_trans
           (f_equal (occurrences u) (eq_sym (layout_segments_quotes v t u)))
           (count_in_layout _ _ _ _ _ v t u Hu Hq
              (eq_trans (f_equal (occurrences u) (eq_sym template_layout_quotes))
                 Htpl)
              Hv Ht H1 H2)).
Qed.

End Counting.

(** C7, as amended: for a URL whose stripped form is not empty, holds no
    double quote and no placeholder of the title or of the timestamp,
    and occurs nowhere else, that is, not in the text of the template,
    not in the timestamp, not in the title, and only once in itself
    followed by a slash or by the wildcard suffix, the rendered document
    contains the stripped URL exactly twice: once as the URI of the
    integration of the root route, followed by a slash, and once as the
    URI of the integration of the wildcard route, followed by the
    wildcard suffix. *)
Theorem get_template_holds_url_twice :
  forall (St : Type) (tld_domain : string -> string) (version_date : string)
         (self : FireProx) (s : state St) (u0 : string),
    url self = Some u0 ->
    chop_slash u0 <> EmptyString ->
    PyStr.has_char (ascii_of_nat 34) (chop_slash u0) = false ->
    PyStr.occurrences "{{title}}" (chop_slash u0) = 0 ->
    PyStr.occurrences "{{version_date}}" (chop_slash u0) = 0 ->
    PyStr.occurrences "{{version_date}}" (title_of tld_domain (chop_slash u0)) = 0 ->
    PyStr.occurrences (chop_slash u0) template = 0 ->
    PyStr.occurrences (chop_slash u0) version_date = 0 ->
    PyStr.occurrences (chop_slash u0) (title_of tld_domain (chop_slash u0)) = 0 ->
    PyStr.occurrences (chop_slash u0) (chop_slash u0 ++ "/") = 1 ->
    PyStr.occurrences (chop_slash u0) (chop_slash u0 ++ "/{proxy}") = 1 ->
    exists document,
      get_template tld_domain version_date self s = (Ret document, s)
      /\ PyStr.occurrences (chop_slash u0) document = 2
      /\ document
         = seg_version ++ version_date ++ seg_title
             ++ title_of tld_domain (chop_slash u0)
             ++ seg_root ++ chop_slash u0
             ++ seg_wildcard ++ chop_slash u0
             ++ seg_tail
      /\ (exists a b,
            seg_root = a ++ PyStr.dquote "'/': {" ++ b ++ PyStr.dquote "'uri': '")
      /\ PyStr.occurrences (PyStr.dquote "'/{proxy+}': {") seg_root = 0
      /\ (exists a b,
            seg_wildcard
            = PyStr.dquote "/'" ++ a ++ PyStr.dquote "'/{proxy+}': {" ++ b
                ++ PyStr.dquote "'uri': '")
      /\ (exists c, seg_tail = PyStr.dquote "/{proxy}'" ++ c).
Proof.
  intros St tld_domain version_date self s u0 Hurl Hu Hq Ht1 Hv1 Hv2
         Htpl Hv Ht H1 H2.
  assert (Hu0 : u0 <> EmptyString) by (intros ->; apply Hu; reflexivity).
  destruct segments_routes as (R1 & R2 & R3 & R4 & _).
  eexists. split.
  { rewrite (get_template_run tld_domain version_date self u0 s Hurl Hu0).
    rewrite (render_segments version_date _ _ Ht1 Hv1 Hv2). reflexivity. }
  split.
  { exact (document_holds_url_twice version_date _ _ Hu Hq Htpl Hv Ht H1 H2). }
  split; [reflexivity|]. auto.
Qed.

Lemma get_template_holds_url_twice_witness :
  exists document,
    get_template Demo.domain Demo.version_date
      (Demo.args None (Some "https://example.com/")) Demo.start
    = (Ret document, Demo.start)
    /\ PyStr.occurrences "https://example.com" document = 2.
Proof.
  destruct (get_template_holds_url_twice Demo.cloud Demo.domain
              Demo.version_date (Demo.args None (Some "https://example.com/"))
              Demo.start "https://example.com/")
    as (document & Hrun & Hcount & _);
    first [exists document; split; [exact Hrun|exact Hcount]
          |discriminate
          |vm_compute; reflexivity
          |vm_compute; discriminate].
Defined.

(** C7, as stated, fails on a URL that occurs in the title and on a URL
    that holds a placeholder: for [localhost], whose domain is
    [localhost], the document holds the URL three times, the third in
    the title; for a URL with the placeholder of the title in its path
    the title is written into both URIs and the document does not hold
    the URL at all. *)
Lemma get_template_url_not_twice :
  (exists document,
     get_template (fun _ => "localhost") Demo.version_date
       (Demo.args None (Some "localhost")) Demo.start
     = (Ret document, Demo.start)
     /\ PyStr.occurrences "localhost" document = 3)
  /\ (exists document,
        get_template (fun _ => "example") Demo.version_date
          (Demo.args None (Some "https://example.com/{{title}}")) Demo.start
        = (Ret document, Demo.start)
        /\ PyStr.occurrences "https://example.com/{{title}}" document = 0).
Proof.
  split; eexists; (split; [reflexivity|vm_compute; reflexivity]).
Qed.
